(** * School van complaint tracker: complaint lifecycle and analytics

    A shallow embedding of the database helpers of [app.py]
    ([fetch_user], [insert_complaint], [update_complaint_status],
    [set_chairman_reaction], [fetch_complaints]), of the sign-in / sign-up
    and form-submission branches that call them, and of
    [compute_resolution_metrics], followed by the properties of the
    complaint workflow that the specification states.

    Conventions of the embedding.
    - The SQLite database is an explicit value of type [db]; every helper
      takes the database and returns the new database together with what
      the Python function returns or raises ([py_result]).
    - [datetime.utcnow()] and [date.today()] are readings of the clock:
      they are explicit arguments ([utcnow], [today]).
    - TEXT columns and Python strings are [string]s, sequences of
      single-byte characters, compared as SQLite's BINARY collation
      does; nullable columns are [option]s.
    - Notices shown to the user carry their text without the emoji.
    - The [photo_paths] column holds [json.dumps] of a list of paths and
      is only ever read back through [json.loads]: it is kept as the list.
    - Durations are Python floats in the source; they are exact rationals
      here, so rounding of binary64 arithmetic is not modelled. *)

From Stdlib Require Import List String Ascii ZArith QArith Bool Lia.
From Stdlib Require Import Permutation Sorted.
Import ListNotations.

Set Implicit Arguments.

Local Open Scope string_scope.
Local Open Scope Z_scope.

(** ** What a Python call produces *)

Inductive exn : Type :=
| IntegrityError   (* sqlite3.IntegrityError: a constraint failed *)
| ValueError.      (* datetime.fromisoformat on a malformed string *)

Inductive py_result (A : Type) : Type :=
| Returned (a : A)
| Raised (e : exn).

Arguments Returned {A} a.
Arguments Raised {A} e.


(** ** The two tables *)

Module Users.
Record row : Type := mk {
  id : Z;
  username : string;
  password : string;
  role : string
}.
End Users.

Module Complaints.
Record row : Type := mk {
  id : Z;
  bus_number : Z;
  complaint_datetime : string;
  problem_type : string;
  details : string;
  photo_paths : list string;
  status : string;
  org_response : option string;
  created_at : string;
  updated_at : string;
  resolved_at : option string;
  chairman_reaction : option string
}.
End Complaints.

(** Rows are kept in rowid order, the order in which a table scan visits
    them.  [users_seq] and [complaints_seq] are the entries of
    [sqlite_sequence] that AUTOINCREMENT maintains. *)
Record db : Type := mkdb {
  users : list Users.row;
  users_seq : Z;
  complaints : list Complaints.row;
  complaints_seq : Z
}.

Definition empty_db : db := mkdb [] 0 [] 0.

(** The rowid AUTOINCREMENT hands out: one more than the largest rowid
    the table has ever held. *)
Definition next_rowid (seq : Z) (ids : list Z) : Z :=
  fold_right Z.max seq ids + 1.

(** ** Strings as Python and SQLite treat them *)

(** Python's truth value of a [str]: the empty string is false. *)
Definition truthy (s : string) : bool :=
  match s with
  | EmptyString => false
  | String _ _ => true
  end.

(** The characters [str.strip()] removes, among single-byte characters:
    tab, line feed, vertical tab, form feed, carriage return, the four
    separators 0x1c-0x1f and the space. *)
Definition is_space (c : ascii) : bool :=
  let n := N_of_ascii c in
  (((9 <=? n) && (n <=? 13)) || ((28 <=? n) && (n <=? 32)))%N.

Fixpoint lstrip (s : string) : string :=
  match s with
  | EmptyString => EmptyString
  | String c s' => if is_space c then lstrip s' else s
  end.

Fixpoint rstrip (s : string) : string :=
  match s with
  | EmptyString => EmptyString
  | String c s' =>
      match rstrip s' with
      | EmptyString => if is_space c then EmptyString else String c EmptyString
      | t => String c t
      end
  end.

Definition strip (s : string) : string := rstrip (lstrip s).

Arguments strip : simpl never.

(** SQLite folds the 26 ASCII upper-case letters, and nothing else, when
    LIKE compares two characters. *)
Definition to_lower (c : ascii) : ascii :=
  let n := N_of_ascii c in
  if ((65 <=? n) && (n <=? 90))%N then ascii_of_N (n + 32) else c.

Fixpoint lower (s : string) : string :=
  match s with
  | EmptyString => EmptyString
  | String c s' => String (to_lower c) (lower s')
  end.

(** [x LIKE pattern] with SQLite's defaults (no ESCAPE clause, the
    case_sensitive_like pragma off): [%] matches any run of characters,
    [_] any one character, and any other pattern character matches the
    same character up to ASCII case. *)
Fixpoint like (pattern : string) : string -> bool :=
  match pattern with
  | EmptyString => fun x => negb (truthy x)
  | String c p =>
      if Ascii.eqb c "%" then
        fix any (x : string) : bool :=
          like p x ||
          match x with
          | EmptyString => false
          | String _ x' => any x'
          end
      else if Ascii.eqb c "_" then
        fun x =>
          match x with
          | EmptyString => false
          | String _ x' => like p x'
          end
      else
        fun x =>
          match x with
          | EmptyString => false
          | String c2 x' => Ascii.eqb (to_lower c) (to_lower c2) && like p x'
          end
  end.

(** ** hashlib.sha256(...).hexdigest() *)

Module Sha256.

Definition w32 (x : Z) : Z := x mod 2 ^ 32.

Definition add32 (x y : Z) : Z := w32 (x + y).

Definition rotr (n x : Z) : Z :=
  Z.lor (Z.shiftr x n) (w32 (Z.shiftl x (32 - n))).

Definition ch (x y z : Z) : Z :=
  Z.lxor (Z.land x y) (Z.land (Z.lxor x (2 ^ 32 - 1)) z).

Definition maj (x y z : Z) : Z :=
  Z.lxor (Z.lxor (Z.land x y) (Z.land x z)) (Z.land y z).

Definition bsig0 (x : Z) : Z :=
  Z.lxor (Z.lxor (rotr 2 x) (rotr 13 x)) (rotr 22 x).
Definition bsig1 (x : Z) : Z :=
  Z.lxor (Z.lxor (rotr 6 x) (rotr 11 x)) (rotr 25 x).
Definition ssig0 (x : Z) : Z :=
  Z.lxor (Z.lxor (rotr 7 x) (rotr 18 x)) (Z.shiftr x 3).
Definition ssig1 (x : Z) : Z :=
  Z.lxor (Z.lxor (rotr 17 x) (rotr 19 x)) (Z.shiftr x 10).

(** The first 32 bits of the fractional parts of the cube roots of the
    first 64 primes. *)
Definition K : list Z :=
  [ 1116352408; 1899447441; 3049323471; 3921009573;
    961987163; 1508970993; 2453635748; 2870763221;
    3624381080; 310598401; 607225278; 1426881987;
    1925078388; 2162078206; 2614888103; 3248222580;
    3835390401; 4022224774; 264347078; 604807628;
    770255983; 1249150122; 1555081692; 1996064986;
    2554220882; 2821834349; 2952996808; 3210313671;
    3336571891; 3584528711; 113926993; 338241895;
    666307205; 773529912; 1294757372; 1396182291;
    1695183700; 1986661051; 2177026350; 2456956037;
    2730485921; 2820302411; 3259730800; 3345764771;
    3516065817; 3600352804; 4094571909; 275423344;
    430227734; 506948616; 659060556; 883997877;
    958139571; 1322822218; 1537002063; 1747873779;
    1955562222; 2024104815; 2227730452; 2361852424;
    2428436474; 2756734187; 3204031479; 3329325298 ].

(** The first 32 bits of the fractional parts of the square roots of
    the first 8 primes. *)
Definition H0 : list Z :=
  [ 1779033703; 3144134277; 1013904242; 2773480762;
    1359893119; 2600822924; 528734635; 1541459225 ].

Fixpoint bytes_of_string (s : string) : list Z :=
  match s with
  | EmptyString => []
  | String c s' => Z.of_N (N_of_ascii c) :: bytes_of_string s'
  end.

(** [n] as [k] big-endian bytes. *)
Fixpoint be_bytes (k : nat) (n : Z) : list Z :=
  match k with
  | O => []
  | S k' => (be_bytes k' (n / 256) ++ [n mod 256])%list
  end.

(** The message, a 1 bit, zero bits up to 448 modulo 512, and the bit
    length of the message on 64 bits. *)
Definition pad (msg : list Z) : list Z :=
  let len := Z.of_nat (List.length msg) in
  let zeros := Z.to_nat ((55 - len) mod 64) in
  (msg ++ [128] ++ repeat 0 zeros ++ be_bytes 8 (8 * len))%list.

(** Big-endian 32-bit words of a byte sequence (whole words only). *)
Fixpoint words (fuel : nat) (bs : list Z) : list Z :=
  match fuel, bs with
  | S fuel', b0 :: b1 :: b2 :: b3 :: rest =>
      (((b0 * 256 + b1) * 256 + b2) * 256 + b3) :: words fuel' rest
  | _, _ => []
  end.

(** The message schedule, newest word first: [rev_w] holds
    W[t-1], W[t-2], ...; [extend n] appends the next [n] words. *)
Fixpoint extend (n : nat) (rev_w : list Z) : list Z :=
  match n with
  | O => rev_w
  | S n' =>
      let w := add32 (add32 (ssig1 (nth 1 rev_w 0)) (nth 6 rev_w 0))
                     (add32 (ssig0 (nth 14 rev_w 0)) (nth 15 rev_w 0)) in
      extend n' (w :: rev_w)
  end.

Definition schedule (block : list Z) : list Z :=
  rev (extend 48 (rev block)).

Record regs : Type := mkregs { ra : Z; rb : Z; rc : Z; rd : Z;
                               re : Z; rf : Z; rg : Z; rh : Z }.

Definition round (s : regs) (kw : Z * Z) : regs :=
  let t1 := add32 (add32 (add32 (rh s) (bsig1 (re s)))
                         (add32 (ch (re s) (rf s) (rg s)) (fst kw)))
                  (snd kw) in
  let t2 := add32 (bsig0 (ra s)) (maj (ra s) (rb s) (rc s)) in
  mkregs (add32 t1 t2) (ra s) (rb s) (rc s)
         (add32 (rd s) t1) (re s) (rf s) (rg s).

Definition compress (h : regs) (block : list Z) : regs :=
  let s := fold_left round (combine K (schedule block)) h in
  mkregs (add32 (ra h) (ra s)) (add32 (rb h) (rb s))
         (add32 (rc h) (rc s)) (add32 (rd h) (rd s))
         (add32 (re h) (re s)) (add32 (rf h) (rf s))
         (add32 (rg h) (rg s)) (add32 (rh h) (rh s)).

(** One block of sixteen words per step. *)
Fixpoint blocks (fuel : nat) (h : regs) (ws : list Z) : regs :=
  match fuel, ws with
  | S fuel', _ :: _ => blocks fuel' (compress h (firstn 16 ws)) (skipn 16 ws)
  | _, _ => h
  end.

Definition init : regs :=
  mkregs (nth 0 H0 0) (nth 1 H0 0) (nth 2 H0 0) (nth 3 H0 0)
         (nth 4 H0 0) (nth 5 H0 0) (nth 6 H0 0) (nth 7 H0 0).

Definition digest (msg : list Z) : list Z :=
  let bs := pad msg in
  let ws := words (List.length bs) bs in
  let h := blocks (List.length ws) init ws in
  [ra h; rb h; rc h; rd h; re h; rf h; rg h; rh h].

Definition hex_digit (n : Z) : ascii :=
  if n <? 10 then ascii_of_N (Z.to_N (48 + n))
  else ascii_of_N (Z.to_N (87 + n)).

(** [n] as [k] lower-case hexadecimal digits. *)
Fixpoint hex (k : nat) (n : Z) : string :=
  match k with
  | O => EmptyString
  | S k' => hex k' (n / 16) ++ String (hex_digit (n mod 16)) EmptyString
  end.

Definition hexdigest (s : string) : string :=
  String.concat "" (map (hex 8) (digest (bytes_of_string s))).

End Sha256.

(** [hashlib.sha256(password.encode('utf-8')).hexdigest()]; a [string]
    is already the sequence of encoded bytes. *)
Definition sha256_hexdigest (password : string) : string :=
  Sha256.hexdigest password.

Arguments sha256_hexdigest : simpl never.

(** ** Dates and times of Python's [datetime] module *)

Record date : Type := mkdate { year : Z; month : Z; day : Z }.

Record time : Type := mktime {
  hour : Z; minute : Z; second : Z; microsecond : Z
}.

(** [datetime.combine(d, t)] is [mkdatetime d t]; [dt.date()] is
    [dt_date dt]. *)
Record datetime : Type := mkdatetime { dt_date : date; dt_time : time }.

Definition datetime_combine (d : date) (t : time) : datetime :=
  mkdatetime d t.

Definition is_leap (y : Z) : bool :=
  (y mod 4 =? 0) && (negb (y mod 100 =? 0) || (y mod 400 =? 0)).

Definition days_in_month (y m : Z) : Z :=
  if m =? 2 then (if is_leap y then 29 else 28)
  else if (m =? 4) || (m =? 6) || (m =? 9) || (m =? 11) then 30
  else 31.

Definition days_before_year (y : Z) : Z :=
  let p := y - 1 in
  p * 365 + p / 4 - p / 100 + p / 400.

Definition days_before_month (y m : Z) : Z :=
  nth (Z.to_nat (m - 1))
      [0; 31; 59; 90; 120; 151; 181; 212; 243; 273; 304; 334] 0
  + (if (2 <? m) && is_leap y then 1 else 0).

(** Day number of a date, 0001-01-01 being day 1. *)
Definition ymd2ord (d : date) : Z :=
  days_before_year (year d) + days_before_month (year d) (month d) + day d.

Definition valid_date (d : date) : bool :=
  (1 <=? year d) && (year d <=? 9999) &&
  (1 <=? month d) && (month d <=? 12) &&
  (1 <=? day d) && (day d <=? days_in_month (year d) (month d)).

Definition valid_time (t : time) : bool :=
  (0 <=? hour t) && (hour t <? 24) &&
  (0 <=? minute t) && (minute t <? 60) &&
  (0 <=? second t) && (second t <? 60) &&
  (0 <=? microsecond t) && (microsecond t <? 1000000).

(** What every [datetime] object of Python satisfies. *)
Definition valid_datetime (dt : datetime) : bool :=
  valid_date (dt_date dt) && valid_time (dt_time dt).

(** The last [width] decimal digits of [n], most significant first. *)
Fixpoint zero_padded (width : nat) (n : Z) : string :=
  match width with
  | O => EmptyString
  | S w =>
      zero_padded w (n / 10)
      ++ String (ascii_of_N (Z.to_N (48 + n mod 10))) EmptyString
  end.

(** [date.isoformat()]: YYYY-MM-DD. *)
Definition date_isoformat (d : date) : string :=
  zero_padded 4 (year d) ++ "-" ++ zero_padded 2 (month d) ++ "-"
  ++ zero_padded 2 (day d).

(** [datetime.isoformat()]: YYYY-MM-DDTHH:MM:SS, followed by .ffffff
    when the microsecond is not zero. *)
Definition datetime_isoformat (dt : datetime) : string :=
  let t := dt_time dt in
  date_isoformat (dt_date dt) ++ "T"
  ++ zero_padded 2 (hour t) ++ ":" ++ zero_padded 2 (minute t) ++ ":"
  ++ zero_padded 2 (second t)
  ++ (if microsecond t =? 0 then "" else "." ++ zero_padded 6 (microsecond t)).

Definition digit (c : ascii) : option Z :=
  let n := N_of_ascii c in
  if ((48 <=? n) && (n <=? 57))%N then Some (Z.of_N n - 48) else None.

(** Reads exactly [k] decimal digits. *)
Fixpoint digits (k : nat) (acc : Z) (s : string) : option (Z * string) :=
  match k, s with
  | O, _ => Some (acc, s)
  | S k', String c s' =>
      match digit c with
      | Some v => digits k' (10 * acc + v) s'
      | None => None
      end
  | S _, EmptyString => None
  end.

Definition expect (c : ascii) (s : string) : option string :=
  match s with
  | String c' s' => if Ascii.eqb c c' then Some s' else None
  | EmptyString => None
  end.

Notation "'let?' x := e 'in' k" :=
  (match e with Some x => k | None => None end)
  (at level 10, x pattern, e at level 100, k at level 200, only parsing).

Definition parse_date (s : string) : option (date * string) :=
  let? (y, s) := digits 4 0 s in
  let? s := expect "-" s in
  let? (m, s) := digits 2 0 s in
  let? s := expect "-" s in
  let? (d, s) := digits 2 0 s in
  Some (mkdate y m d, s).

Definition parse_time (s : string) : option time :=
  let? (h, s) := digits 2 0 s in
  let? s := expect ":" s in
  let? (mi, s) := digits 2 0 s in
  let? s := expect ":" s in
  let? (sec, s) := digits 2 0 s in
  match s with
  | EmptyString => Some (mktime h mi sec 0)
  | String c s' =>
      if Ascii.eqb c "." then
        let? (us, rest) := digits 6 0 s' in
        match rest with
        | EmptyString => Some (mktime h mi sec us)
        | String _ _ => None
        end
      else None
  end.

(** [datetime.fromisoformat] on the shapes [isoformat()] writes: a date,
    optionally followed by one separator character and HH:MM:SS or
    HH:MM:SS.ffffff.  The application stores no other shape; a string of
    another shape is reported as [ValueError] here. *)
Definition fromisoformat (s : string) : py_result datetime :=
  match parse_date s with
  | None => Raised ValueError
  | Some (d, rest) =>
      match rest with
      | EmptyString =>
          if valid_date d then Returned (mkdatetime d (mktime 0 0 0 0))
          else Raised ValueError
      | String _ rest' =>
          match parse_time rest' with
          | Some t =>
              if valid_date d && valid_time t then Returned (mkdatetime d t)
              else Raised ValueError
          | None => Raised ValueError
          end
      end
  end.

(** Microseconds elapsed since the start of day 0. *)
Definition to_microseconds (dt : datetime) : Z :=
  let t := dt_time dt in
  (((ymd2ord (dt_date dt) * 24 + hour t) * 60 + minute t) * 60 + second t)
  * 1000000 + microsecond t.

(** [(a - b).total_seconds()]. *)
Definition total_seconds (a b : datetime) : Q :=
  Qmake (to_microseconds a - to_microseconds b) 1000000.

(** SQLite's [date(x)] on a stored [isoformat()] string: its date, or
    NULL when [x] is not a timestamp. *)
Definition sql_date (x : string) : option string :=
  match fromisoformat x with
  | Returned dt => Some (date_isoformat (dt_date dt))
  | Raised _ => None
  end.

(** ** Creating complaints *)

Definition insert_complaint (bus_number : Z) (complaint_dt : datetime)
    (problem_type details : string) (photo_paths : list string)
    (utcnow : datetime) (d : db) : py_result unit * db :=
  let now := datetime_isoformat utcnow in
  let rowid :=
    next_rowid (complaints_seq d) (map Complaints.id (complaints d)) in
  (Returned tt,
   mkdb (users d) (users_seq d)
        (complaints d ++
         [Complaints.mk rowid bus_number (datetime_isoformat complaint_dt)
            problem_type details photo_paths "Open" None now now None None])%list
        rowid).

(** What the page shows after a form is handled. *)
Inductive notice : Type :=
| st_error (msg : string)
| st_warning (msg : string)
| st_success (msg : string).

(** The [if submitted:] branch of [principal_page].  [saved_paths] are
    the paths under which the uploaded photos were written. *)
Definition principal_page_submit (bus_number : Z) (complaint_date : date)
    (complaint_time : time) (problem_type details : string)
    (saved_paths : list string) (utcnow : datetime) (d : db) : notice * db :=
  if negb (truthy (strip details)) then
    (st_error "Please provide a detailed description.", d)
  else
    let complaint_dt := datetime_combine complaint_date complaint_time in
    let '(_, d') :=
      insert_complaint bus_number complaint_dt problem_type details
        saved_paths utcnow d in
    (st_success "Complaint submitted successfully.", d').

(** ** Point updates of complaints *)

(** [UPDATE complaints SET ... WHERE id = ?]: every row whose id matches
    is rewritten by [set]; a statement that matches no row changes
    nothing and is not an error. *)
Definition update_where_id (complaint_id : Z)
    (set : Complaints.row -> Complaints.row) (d : db) : db :=
  mkdb (users d) (users_seq d)
       (map (fun r => if Complaints.id r =? complaint_id then set r else r)
            (complaints d))
       (complaints_seq d).

Definition update_complaint_status (complaint_id : Z) (status : string)
    (response : option string) (utcnow : datetime) (d : db)
  : py_result unit * db :=
  let now := datetime_isoformat utcnow in
  let resolved_at := if String.eqb status "Resolved" then Some now else None in
  (Returned tt,
   update_where_id complaint_id
     (fun r =>
        Complaints.mk
          (Complaints.id r)
          (Complaints.bus_number r)
          (Complaints.complaint_datetime r)
          (Complaints.problem_type r)
          (Complaints.details r)
          (Complaints.photo_paths r)
          status
          response
          (Complaints.created_at r)
          now
          (* CASE WHEN ? IS NULL THEN resolved_at ELSE ? END *)
          (match resolved_at with
           | None => Complaints.resolved_at r
           | Some t => Some t
           end)
          (Complaints.chairman_reaction r))
     d).

Definition set_chairman_reaction (complaint_id : Z) (reaction : string)
    (utcnow : datetime) (d : db) : py_result unit * db :=
  let now := datetime_isoformat utcnow in
  (Returned tt,
   update_where_id complaint_id
     (fun r =>
        Complaints.mk
          (Complaints.id r)
          (Complaints.bus_number r)
          (Complaints.complaint_datetime r)
          (Complaints.problem_type r)
          (Complaints.details r)
          (Complaints.photo_paths r)
          (Complaints.status r)
          (Complaints.org_response r)
          (Complaints.created_at r)
          now
          (Complaints.resolved_at r)
          (Some reaction))
     d).

(** [SELECT * FROM complaints WHERE id = ?], used to observe one record
    before and after an operation. *)
Definition complaint_by_id (d : db) (k : Z) : option Complaints.row :=
  find (fun r => Complaints.id r =? k) (complaints d).

(** ** Retrieving complaints *)

(** [ORDER BY complaint_datetime DESC]: SQLite sorts the selected rows
    on the text of the column, greatest first; rows with equal keys stay
    in the order in which the scan produced them. *)
Fixpoint insert_desc (r : Complaints.row) (sorted : list Complaints.row)
  : list Complaints.row :=
  match sorted with
  | [] => [r]
  | r' :: rest =>
      if String.leb (Complaints.complaint_datetime r')
                    (Complaints.complaint_datetime r)
      then r :: r' :: rest
      else r' :: insert_desc r rest
  end.

Definition order_by_complaint_datetime_desc (rows : list Complaints.row)
  : list Complaints.row :=
  fold_right insert_desc [] rows.

(** [date(complaint_datetime) >= ?] and [<= ?]: a comparison with NULL
    selects nothing. *)
Definition date_ge (bound : string) (r : Complaints.row) : bool :=
  match sql_date (Complaints.complaint_datetime r) with
  | Some dd => String.leb bound dd
  | None => false
  end.

Definition date_le (bound : string) (r : Complaints.row) : bool :=
  match sql_date (Complaints.complaint_datetime r) with
  | Some dd => String.leb dd bound
  | None => false
  end.

(** The conditions [fetch_complaints] appends to [WHERE 1=1], in the
    order in which it appends them. *)
Definition where_clauses (bus : option Z) (problem status : option string)
    (start_date end_date : option date) : list (Complaints.row -> bool) :=
  (match bus with
   | Some b => [fun r => Complaints.bus_number r =? b]
   | None => []
   end ++
   match problem with
   | Some p =>
       if truthy p
       then [fun r => like ("%" ++ p ++ "%") (Complaints.problem_type r)]
       else []
   | None => []
   end ++
   match status with
   | Some s =>
       if truthy s && negb (String.eqb s "All")
       then [fun r => String.eqb (Complaints.status r) s]
       else []
   | None => []
   end ++
   match start_date with
   | Some sd => [date_ge (date_isoformat sd)]
   | None => []
   end ++
   match end_date with
   | Some ed => [date_le (date_isoformat ed)]
   | None => []
   end)%list.

Definition selected (clauses : list (Complaints.row -> bool))
    (r : Complaints.row) : bool :=
  forallb (fun clause => clause r) clauses.

Definition fetch_complaints (bus : option Z) (problem status : option string)
    (start_date end_date : option date) (d : db) : list Complaints.row :=
  let query := where_clauses bus problem status start_date end_date in
  order_by_complaint_datetime_desc (filter (selected query) (complaints d)).

(** ** Users *)

(** [INSERT INTO users (username, password, role) VALUES (?, ?, ?)]:
    the UNIQUE constraint on [username] rejects a second row with the
    same name and leaves the table as it was. *)
Definition insert_user (username password role : string) (d : db)
  : py_result unit * db :=
  if existsb (fun u => String.eqb (Users.username u) username) (users d)
  then (Raised IntegrityError, d)
  else
    let rowid := next_rowid (users_seq d) (map Users.id (users d)) in
    (Returned tt,
     mkdb (users d ++ [Users.mk rowid username password role])%list rowid
          (complaints d) (complaints_seq d)).

(** [INSERT OR IGNORE]: the same, a conflict being skipped silently. *)
Definition insert_or_ignore_user (d : db) (u : string * string * string)
  : db :=
  let '(username, password, role) := u in
  snd (insert_user username password role d).

(** [init_db]: the tables exist in every [db]; the three default users
    are added, with the passwords as written, unless already present. *)
Definition init_db (d : db) : db :=
  let users :=
    [ ("principal", "principal123", "principal");
      ("org", "org123", "org");
      ("chairman", "chairman123", "chairman") ] in
  fold_left insert_or_ignore_user users d.

Definition fetch_user (username password : string) (d : db)
  : option Users.row :=
  let hashed_password := sha256_hexdigest password in
  find (fun u =>
          String.eqb (Users.username u) (strip username)
          && String.eqb (Users.password u) hashed_password)
       (users d).

(** The entry of [st.session_state] that marks a signed-in user. *)
Record session_user : Type := mksession {
  session_id : Z;
  session_username : string;
  session_role : string
}.

(** The Sign In branch of [login]: the session user it stores, or the
    notice it shows. *)
Definition login_sign_in (username password : string) (d : db)
  : session_user + notice :=
  if truthy username && truthy password then
    match fetch_user username password d with
    | Some user =>
        inl (mksession (Users.id user) (Users.username user)
                       (Users.role user))
    | None => inr (st_error "Wrong username/password")
    end
  else inr (st_warning "Enter username/password").

(** The Sign Up branch of [login]. *)
Definition login_sign_up (new_username new_password role : string) (d : db)
  : notice * db :=
  if truthy new_username && truthy new_password then
    let hashed_pw := sha256_hexdigest new_password in
    match insert_user (strip new_username) hashed_pw role d with
    | (Returned _, d') =>
        (st_success (new_username ++ " created! Now Sign In above"), d')
    | (Raised _, d') => (st_error "Username exists or error", d')
    end
  else (st_warning "Fill all fields", d).

(** ** Resolution metrics *)

(** One iteration of the loop over [rows]; the state is
    [(resolved_today, durations)].  [if r["resolved_at"]:] skips a row
    whose column is NULL or the empty string. *)
Definition metrics_step (today_str : string) (acc : py_result (Z * list Q))
    (r : Complaints.row) : py_result (Z * list Q) :=
  match acc with
  | Raised e => Raised e
  | Returned (resolved_today, durations) =>
      match Complaints.resolved_at r with
      | None => Returned (resolved_today, durations)
      | Some resolved_at =>
          if truthy resolved_at then
            match fromisoformat resolved_at with
            | Raised e => Raised e
            | Returned resolved_dt =>
                match fromisoformat (Complaints.created_at r) with
                | Raised e => Raised e
                | Returned created_dt =>
                    let hours :=
                      (total_seconds resolved_dt created_dt / 3600)%Q in
                    let durations := (durations ++ [hours])%list in
                    if String.eqb (date_isoformat (dt_date resolved_dt))
                                  today_str
                    then Returned (resolved_today + 1, durations)
                    else Returned (resolved_today, durations)
                end
            end
          else Returned (resolved_today, durations)
      end
  end.

(** Python's [sum] of a list of numbers. *)
Definition py_sum (xs : list Q) : Q := fold_left Qplus xs 0%Q.

Definition compute_resolution_metrics (rows : list Complaints.row)
    (today : date) : py_result (Z * Z * Z * option Q) :=
  let today_str := date_isoformat today in
  let total := Z.of_nat (List.length rows) in
  let open_count :=
    Z.of_nat (List.length
                (filter (fun r => String.eqb (Complaints.status r) "Open")
                        rows)) in
  match fold_left (metrics_step today_str) rows (Returned (0, [])) with
  | Raised e => Raised e
  | Returned (resolved_today, durations) =>
      let avg_hours :=
        match durations with
        | [] => None
        | _ :: _ =>
            Some (py_sum durations
                  / inject_Z (Z.of_nat (List.length durations)))%Q
        end in
      Returned (total, open_count, resolved_today, avg_hours)
  end.

(** ** The tables the pages show *)

(** One line of the DataFrame [complaints_to_df] builds. *)
Record df_row : Type := mkdf {
  df_ID : Z;
  df_Bus : Z;
  df_DateTime : string;
  df_Problem : string;
  df_Status : string;
  df_OrgResponse : string;
  df_Photos : Z
}.

(** [x or ""] on a nullable TEXT column. *)
Definition or_empty (x : option string) : string :=
  match x with
  | Some s => s
  | None => ""
  end.

(** [complaints_to_df]: one line per row, in the order of the rows; no
    row gives the empty frame. *)
Definition complaints_to_df (rows : list Complaints.row) : list df_row :=
  map (fun r =>
         mkdf (Complaints.id r) (Complaints.bus_number r)
              (Complaints.complaint_datetime r) (Complaints.problem_type r)
              (Complaints.status r) (or_empty (Complaints.org_response r))
              (Z.of_nat (List.length (Complaints.photo_paths r))))
      rows.

(** The Recent Complaints table of [principal_page]: [df.head(10)] of
    the unfiltered listing. *)
Definition principal_page_recent (d : db) : list df_row :=
  firstn 10 (complaints_to_df (fetch_complaints None None None None None d)).


(** The first lines of [chairman_page]: the metrics of the unfiltered
    listing. *)
Definition chairman_page_metrics (today : date) (d : db)
  : py_result (Z * Z * Z * option Q) :=
  let rows := fetch_complaints None None None None None d in
  compute_resolution_metrics rows today.

(** ** Sample stores

    The worked example of the specification: one complaint about bus 12,
    filed and then resolved an hour and a half later. *)

Definition at_clock (d h mi : Z) : datetime :=
  mkdatetime (mkdate 2024 3 d) (mktime h mi 0 0).

Definition db_filed : db :=
  snd (principal_page_submit 12 (mkdate 2024 3 1) (mktime 8 0 0 0)
         "Delay" "15 min late" [] (at_clock 1 8 0) empty_db).

Definition db_resolved : db :=
  snd (update_complaint_status 1 "Resolved" (Some "Driver rerouted")
         (at_clock 1 9 30) db_filed).

(** The record of that complaint once resolved. *)
Definition row_resolved : Complaints.row :=
  Complaints.mk 1 12 "2024-03-01T08:00:00" "Delay" "15 min late" []
    "Resolved" (Some "Driver rerouted") "2024-03-01T08:00:00"
    "2024-03-01T09:30:00" (Some "2024-03-01T09:30:00") None.

(** A second complaint with the same incident time as the first. *)
Definition db_two_same_time : db :=
  snd (principal_page_submit 7 (mkdate 2024 3 1) (mktime 8 0 0 0)
         "Fight" "pushing at the door" [] (at_clock 1 10 0) db_resolved).

(** ** Notions used in the statements *)

(** [a] does not sort after [b] in SQLite's order on TEXT. *)
Definition text_le (a b : string) : Prop := String.leb a b = true.

(** [a] may stand before [b] in a listing, newest first. *)
Definition newest_first (a b : Complaints.row) : Prop :=
  text_le (Complaints.complaint_datetime b) (Complaints.complaint_datetime a).

(** The rows with one given incident time, in the order of the list. *)
Definition at_time (t : string) (rows : list Complaints.row)
  : list Complaints.row :=
  filter (fun r => String.eqb (Complaints.complaint_datetime r) t) rows.




(** The row has a resolution time. *)
Definition is_resolved (r : Complaints.row) : bool :=
  match Complaints.resolved_at r with
  | Some _ => true
  | None => false
  end.

(** The [resolved_at] of the row, when there is one, and its
    [created_at] are timestamps, as they are in every row the
    application has written. *)
Definition timestamps_parse (r : Complaints.row) : Prop :=
  forall s,
    Complaints.resolved_at r = Some s ->
    (exists dt, fromisoformat s = Returned dt)
    /\ (exists dt, fromisoformat (Complaints.created_at r) = Returned dt).

(** The time from the creation of a resolved row to its resolution, in
    hours: an hour is 3 600 000 000 microseconds. *)
Definition resolution_hours (r : Complaints.row) : Q :=
  match Complaints.resolved_at r with
  | Some s =>
      match fromisoformat s, fromisoformat (Complaints.created_at r) with
      | Returned resolved, Returned created =>
          Qmake (to_microseconds resolved - to_microseconds created)
                3600000000
      | _, _ => 0%Q
      end
  | None => 0%Q
  end.


(** The [created_at] of the row and its [resolved_at], when there is
    one, read back as timestamps. *)
Definition stored_timestamps (r : Complaints.row) : Prop :=
  (exists dt, fromisoformat (Complaints.created_at r) = Returned dt)
  /\ (forall s, Complaints.resolved_at r = Some s ->
                exists dt, fromisoformat s = Returned dt).

(** The ways in which the application changes the store: [main] runs
    [init_db] whenever the script runs, and the pages call the helpers. *)
Inductive action : Type :=
| Startup
| Submit (bus_number : Z) (complaint_date : date) (complaint_time : time)
         (problem_type details : string) (saved_paths : list string)
         (utcnow : datetime)
| SaveUpdate (complaint_id : Z) (status : string) (response : option string)
             (utcnow : datetime)
| React (complaint_id : Z) (reaction : string) (utcnow : datetime)
| CreateAccount (new_username new_password role : string).

(** The dates and times an action carries are dates and times, as the
    objects of Python's [datetime] module always are. *)
Definition well_formed (a : action) : Prop :=
  match a with
  | Startup => True
  | Submit _ complaint_date complaint_time _ _ _ utcnow =>
      valid_date complaint_date = true
      /\ valid_time complaint_time = true
      /\ valid_datetime utcnow = true
  | SaveUpdate _ _ _ utcnow => valid_datetime utcnow = true
  | React _ _ utcnow => valid_datetime utcnow = true
  | CreateAccount _ _ _ => True
  end.

Definition perform (a : action) (d : db) : db :=
  match a with
  | Startup => init_db d
  | Submit bus_number complaint_date complaint_time problem_type details
           saved_paths utcnow =>
      snd (principal_page_submit bus_number complaint_date complaint_time
             problem_type details saved_paths utcnow d)
  | SaveUpdate complaint_id status response utcnow =>
      snd (update_complaint_status complaint_id status response utcnow d)
  | React complaint_id reaction utcnow =>
      snd (set_chairman_reaction complaint_id reaction utcnow d)
  | CreateAccount new_username new_password role =>
      snd (login_sign_up new_username new_password role d)
  end.

(** The stores the application can be in, starting from a new database
    file. *)
Inductive reachable : db -> Prop :=
| reachable_empty : reachable empty_db
| reachable_step (a : action) (d : db) :
    reachable d -> well_formed a -> reachable (perform a d).

(** The incident time of the row was written by [isoformat]. *)
Definition incident_written (r : Complaints.row) : Prop :=
  exists dt,
    valid_datetime dt = true
    /\ Complaints.complaint_datetime r = datetime_isoformat dt.

(** The incident time of a row, in microseconds. *)
Definition incident_time (r : Complaints.row) : Z :=
  match fromisoformat (Complaints.complaint_datetime r) with
  | Returned dt => to_microseconds dt
  | Raised _ => 0
  end.

(** The incident of [a] is not earlier than that of [b]. *)
Definition not_earlier (a b : Complaints.row) : Prop :=
  incident_time b <= incident_time a.

(** Comparison of two sequences of numbers, the first difference
    deciding. *)
Fixpoint lex_compare (xs ys : list Z) : comparison :=
  match xs, ys with
  | x :: xs', y :: ys' =>
      match x ?= y with
      | Eq => lex_compare xs' ys'
      | c => c
      end
  | [], [] => Eq
  | [], _ :: _ => Lt
  | _ :: _, [] => Gt
  end.

(** The fields of a timestamp, the most significant first. *)
Definition fields (dt : datetime) : list Z :=
  [ year (dt_date dt); month (dt_date dt); day (dt_date dt);
    hour (dt_time dt); minute (dt_time dt); second (dt_time dt);
    microsecond (dt_time dt) ].

(** A user of that name is in the [users] table. *)
Definition has_user (name : string) (d : db) : bool :=
  existsb (fun u => String.eqb (Users.username u) name) (users d).

(** The user names [init_db] seeds. *)
Definition seeded_names : list string := ["principal"; "org"; "chairman"].

(** The row was resolved on the day whose text is [today_str]. *)
Definition resolved_on (today_str : string) (r : Complaints.row) : bool :=
  match Complaints.resolved_at r with
  | Some s =>
      match fromisoformat s with
      | Returned dt => String.eqb (date_isoformat (dt_date dt)) today_str
      | Raised _ => false
      end
  | None => false
  end.

(** The text does not begin with the four digits of a year, as every
    text [fromisoformat] reads does. *)
Definition lacks_year (s : string) : bool :=
  match digits 4 0 s with
  | Some _ => false
  | None => true
  end.

(** The day number of the incident of a row. *)
Definition incident_day (r : Complaints.row) : Z :=
  match fromisoformat (Complaints.complaint_datetime r) with
  | Returned dt => ymd2ord (dt_date dt)
  | Raised _ => 0
  end.

(** A second sample: the store once started, with one account and the
    two complaints of [db_two_same_time]. *)
Definition db_started : db :=
  perform (Submit 7 (mkdate 2024 3 1) (mktime 8 0 0 0)
             "Fight" "pushing at the door" [] (at_clock 1 10 0))
    (perform (SaveUpdate 1 "Resolved" (Some "Driver rerouted")
                (at_clock 1 9 30))
       (perform (Submit 12 (mkdate 2024 3 1) (mktime 8 0 0 0)
                   "Delay" "15 min late" [] (at_clock 1 8 0))
          (perform (CreateAccount "ann" "pw123" "org")
             (perform Startup empty_db)))).

(** * Properties *)

(** ** Strings *)

Lemma string_app_assoc (a b c : string) : (a ++ b) ++ c = a ++ (b ++ c).
Proof.
  induction a as [|x a IH]; simpl; [reflexivity | rewrite IH; reflexivity].
Qed.

Lemma string_app_nil_r (s : string) : s ++ "" = s.
Proof.
  induction s as [|c s IH]; simpl; [reflexivity | rewrite IH; reflexivity].
Qed.

(** ** Point updates and lookups *)

Section PointUpdate.

Variable complaint_id : Z.
Variable set : Complaints.row -> Complaints.row.
Hypothesis set_keeps_id : forall r, Complaints.id (set r) = Complaints.id r.

Lemma find_id_map (k : Z) (rows : list Complaints.row) :
  find (fun r => Complaints.id r =? k)
       (map (fun r => if Complaints.id r =? complaint_id then set r else r)
            rows)
  = option_map (fun r => if Complaints.id r =? complaint_id then set r else r)
               (find (fun r => Complaints.id r =? k) rows).
Proof.
  induction rows as [|r rows IH]; simpl; [reflexivity|].
  assert (Hid : Complaints.id
                  (if Complaints.id r =? complaint_id then set r else r)
                = Complaints.id r).
  { destruct (Complaints.id r =? complaint_id); auto. }
  rewrite Hid. destruct (Complaints.id r =? k); [reflexivity | exact IH].
Qed.

(** The targeted record is rewritten by [set]. *)
Lemma updated_complaint (d : db) (r : Complaints.row) :
  complaint_by_id d complaint_id = Some r ->
  complaint_by_id (update_where_id complaint_id set d) complaint_id
  = Some (set r).
Proof.
  unfold complaint_by_id, update_where_id; simpl. intros H.
  rewrite (find_id_map complaint_id (complaints d)), H. simpl.
  apply find_some in H. destruct H as [_ H].
  rewrite H. reflexivity.
Qed.

(** Every other record is left as it was. *)
Lemma other_complaint (d : db) (k : Z) :
  k <> complaint_id ->
  complaint_by_id (update_where_id complaint_id set d) k
  = complaint_by_id d k.
Proof.
  unfold complaint_by_id, update_where_id; simpl. intros Hk.
  rewrite (find_id_map k (complaints d)).
  destruct (find (fun r => Complaints.id r =? k) (complaints d)) as [r|] eqn:E;
    [simpl | reflexivity].
  apply find_some in E. destruct E as [_ E]. apply Z.eqb_eq in E.
  destruct (Complaints.id r =? complaint_id) eqn:E'; [|reflexivity].
  apply Z.eqb_eq in E'. congruence.
Qed.


End PointUpdate.

(** ** The status workflow *)

(** What [update_complaint_status] leaves in the targeted record. *)
Lemma status_update_record (d : db) (complaint_id : Z) (status : string)
    (response : option string) (utcnow : datetime) (r : Complaints.row) :
  complaint_by_id d complaint_id = Some r ->
  complaint_by_id
    (snd (update_complaint_status complaint_id status response utcnow d))
    complaint_id
  = Some (Complaints.mk
            (Complaints.id r) (Complaints.bus_number r)
            (Complaints.complaint_datetime r) (Complaints.problem_type r)
            (Complaints.details r) (Complaints.photo_paths r)
            status response (Complaints.created_at r)
            (datetime_isoformat utcnow)
            (if String.eqb status "Resolved"
             then Some (datetime_isoformat utcnow)
             else Complaints.resolved_at r)
            (Complaints.chairman_reaction r)).
Proof.
  intros H. unfold update_complaint_status; cbn [snd].
  match goal with
  | |- complaint_by_id (update_where_id _ ?set _) _ = _ =>
      rewrite (updated_complaint complaint_id set (fun _ => eq_refl) d H)
  end.
  destruct (String.eqb status "Resolved"); reflexivity.
Qed.

Lemma status_update_other_record (d : db) (complaint_id : Z) (status : string)
    (response : option string) (utcnow : datetime) (k : Z) :
  k <> complaint_id ->
  complaint_by_id
    (snd (update_complaint_status complaint_id status response utcnow d)) k
  = complaint_by_id d k.
Proof.
  intros H. unfold update_complaint_status; cbn [snd].
  apply other_complaint; [intros; reflexivity | exact H].
Qed.

(** C1.  A status update whose new status is not Resolved leaves the
    [resolved_at] of every complaint that has one as it was: the update
    never clears it, and only an update to Resolved can overwrite it. *)
Theorem status_update_keeps_resolved_at :
  forall (d : db) (complaint_id : Z) (status : string)
         (response : option string) (utcnow : datetime)
         (k : Z) (r : Complaints.row) (t : string),
    complaint_by_id d k = Some r ->
    Complaints.resolved_at r = Some t ->
    status <> "Resolved" ->
    exists r',
      complaint_by_id
        (snd (update_complaint_status complaint_id status response utcnow d)) k
      = Some r'
      /\ Complaints.resolved_at r' = Some t.
Proof.
  intros d complaint_id status response utcnow k r t Hr Ht Hs.
  destruct (Z.eq_dec k complaint_id) as [->|Hk].
  - eexists. split.
    + apply status_update_record. exact Hr.
    + simpl. apply String.eqb_neq in Hs. rewrite Hs. exact Ht.
  - exists r. split; [|exact Ht].
    rewrite status_update_other_record by exact Hk. exact Hr.
Qed.

Lemma status_update_keeps_resolved_at_witness :
  exists r',
    complaint_by_id
      (snd (update_complaint_status 1 "In Progress" None
              (at_clock 2 7 0) db_resolved)) 1
    = Some r'
    /\ Complaints.resolved_at r' = Some "2024-03-01T09:30:00".
Proof.
  eapply (@status_update_keeps_resolved_at db_resolved 1 "In Progress" None
            (at_clock 2 7 0) 1).
  - reflexivity.
  - reflexivity.
  - discriminate.
Defined.

(** Conversely, a status update that changes the [resolved_at] of a
    complaint is an update of that complaint to Resolved, and what it
    stores is the time of the update. *)
Lemma resolved_at_changes_only_on_resolved (d : db) (complaint_id : Z)
    (status : string) (response : option string) (utcnow : datetime)
    (k : Z) (r r' : Complaints.row) :
  complaint_by_id d k = Some r ->
  complaint_by_id
    (snd (update_complaint_status complaint_id status response utcnow d)) k
  = Some r' ->
  Complaints.resolved_at r' <> Complaints.resolved_at r ->
  status = "Resolved" /\ k = complaint_id
  /\ Complaints.resolved_at r' = Some (datetime_isoformat utcnow).
Proof.
  intros Hr Hr' Hne.
  destruct (Z.eq_dec k complaint_id) as [->|Hk].
  - rewrite (@status_update_record d complaint_id status response utcnow r Hr)
      in Hr'.
    injection Hr' as <-. cbn [Complaints.resolved_at] in *.
    destruct (String.eqb_spec status "Resolved") as [E|E];
      [auto | contradiction].
  - rewrite status_update_other_record in Hr' by exact Hk.
    congruence.
Qed.

(** C2, as the code has it.  A status update to Resolved stores the
    current time in [resolved_at] whatever the status of the complaint
    was, Resolved included; an update to any other status leaves
    [resolved_at] as it was. *)
Theorem status_update_sets_resolved_at :
  forall (d : db) (complaint_id : Z) (status : string)
         (response : option string) (utcnow : datetime) (r : Complaints.row),
    complaint_by_id d complaint_id = Some r ->
    exists r',
      complaint_by_id
        (snd (update_complaint_status complaint_id status response utcnow d))
        complaint_id
      = Some r'
      /\ Complaints.resolved_at r'
         = if String.eqb status "Resolved"
           then Some (datetime_isoformat utcnow)
           else Complaints.resolved_at r.
Proof.
  intros d complaint_id status response utcnow r Hr.
  eexists. split.
  - apply status_update_record. exact Hr.
  - reflexivity.
Qed.

Lemma status_update_sets_resolved_at_witness :
  exists r',
    complaint_by_id
      (snd (update_complaint_status 1 "Resolved" None
              (at_clock 2 10 0) db_resolved)) 1
    = Some r'
    /\ Complaints.resolved_at r' = Some "2024-03-02T10:00:00".
Proof.
  eapply (@status_update_sets_resolved_at db_resolved 1 "Resolved" None
            (at_clock 2 10 0)).
  reflexivity.
Defined.

(** C2, as stated, fails: the complaint of [db_resolved] has status
    Resolved and was resolved at 09:30; saving status Resolved again a
    day later moves [resolved_at] to the time of the second save. *)
Lemma resubmitting_resolved_moves_resolved_at :
  option_map Complaints.status (complaint_by_id db_resolved 1)
  = Some "Resolved"
  /\ option_map Complaints.resolved_at (complaint_by_id db_resolved 1)
     = Some (Some "2024-03-01T09:30:00")
  /\ option_map Complaints.resolved_at
       (complaint_by_id
          (snd (update_complaint_status 1 "Resolved" (Some "Driver rerouted")
                  (at_clock 2 10 0) db_resolved)) 1)
     = Some (Some "2024-03-02T10:00:00").
Proof.
  repeat split; reflexivity.
Qed.




(** C10.  A status update without a response text stores NULL as the
    response of a complaint that had one. *)
Theorem status_update_clears_response :
  forall (d : db) (complaint_id : Z) (status : string) (utcnow : datetime)
         (r : Complaints.row) (text : string),
    complaint_by_id d complaint_id = Some r ->
    Complaints.org_response r = Some text ->
    exists r',
      complaint_by_id
        (snd (update_complaint_status complaint_id status None utcnow d))
        complaint_id
      = Some r'
      /\ Complaints.org_response r' = None.
Proof.
  intros d complaint_id status utcnow r text Hr _.
  eexists. split.
  - apply status_update_record. exact Hr.
  - reflexivity.
Qed.

Lemma status_update_clears_response_witness :
  exists r',
    complaint_by_id
      (snd (update_complaint_status 1 "In Progress" None
              (at_clock 2 7 0) db_resolved)) 1
    = Some r'
    /\ Complaints.org_response r' = None.
Proof.
  eapply (@status_update_clears_response db_resolved 1 "In Progress"
            (at_clock 2 7 0)).
  - reflexivity.
  - reflexivity.
Defined.

(** ** The chairman's reaction *)

(** C9.  Recording a reaction rewrites [chairman_reaction] and
    [updated_at] of the complaint and no other field, whatever its
    status; the other complaints and the users are left as they were. *)
Theorem set_chairman_reaction_frame :
  forall (d : db) (complaint_id : Z) (reaction : string) (utcnow : datetime)
         (r : Complaints.row),
    complaint_by_id d complaint_id = Some r ->
    let d' := snd (set_chairman_reaction complaint_id reaction utcnow d) in
    complaint_by_id d' complaint_id
    = Some (Complaints.mk
              (Complaints.id r) (Complaints.bus_number r)
              (Complaints.complaint_datetime r) (Complaints.problem_type r)
              (Complaints.details r) (Complaints.photo_paths r)
              (Complaints.status r) (Complaints.org_response r)
              (Complaints.created_at r) (datetime_isoformat utcnow)
              (Complaints.resolved_at r) (Some reaction))
    /\ (forall k, k <> complaint_id ->
                  complaint_by_id d' k = complaint_by_id d k)
    /\ users d' = users d.
Proof.
  intros d complaint_id reaction utcnow r Hr.
  unfold set_chairman_reaction; cbn [snd].
  split; [|split].
  - match goal with
    | |- complaint_by_id (update_where_id _ ?set _) _ = _ =>
        exact (updated_complaint complaint_id set (fun _ => eq_refl) d Hr)
    end.
  - intros k Hk. apply other_complaint; [intros; reflexivity | exact Hk].
  - reflexivity.
Qed.

Lemma set_chairman_reaction_frame_witness :
  let d' :=
    snd (set_chairman_reaction 1 "Great" (at_clock 3 12 0) db_resolved) in
  complaint_by_id d' 1
  = Some (Complaints.mk 1 12 "2024-03-01T08:00:00" "Delay" "15 min late" []
            "Resolved" (Some "Driver rerouted") "2024-03-01T08:00:00"
            "2024-03-03T12:00:00" (Some "2024-03-01T09:30:00") (Some "Great"))
  /\ (forall k, k <> 1 -> complaint_by_id d' k = complaint_by_id db_resolved k)
  /\ users d' = users db_resolved.
Proof.
  apply (@set_chairman_reaction_frame db_resolved 1 "Great" (at_clock 3 12 0)
           row_resolved).
  reflexivity.
Defined.

(** ** Creating a complaint *)


Lemma truthy_true (s : string) : truthy s = true <-> s <> "".
Proof.
  destruct s; simpl; split; intros H; try reflexivity; try discriminate;
    congruence.
Qed.



(** ** Signing up and signing in *)

Lemma find_app_none {A : Type} (f : A -> bool) (l l' : list A) :
  find f l = None -> find f (l ++ l')%list = find f l'.
Proof.
  induction l as [|a l IH]; simpl; [reflexivity|].
  destruct (f a); [discriminate | exact IH].
Qed.

Lemma find_all_false {A : Type} (f : A -> bool) (l : list A) :
  (forall a, In a l -> f a = false) -> find f l = None.
Proof.
  induction l as [|a l IH]; simpl; intros H; [reflexivity|].
  rewrite (H a (or_introl eq_refl)). apply IH. intros b Hb. apply H.
  right. exact Hb.
Qed.

Lemma not_taken (name : string) (us : list Users.row) :
  existsb (fun u => String.eqb (Users.username u) name) us = false ->
  forall p u, In u us ->
    String.eqb (Users.username u) name && String.eqb (Users.password u) p
    = false.
Proof.
  intros H p u Hin. apply andb_false_iff. left.
  destruct (String.eqb (Users.username u) name) eqn:E; [|reflexivity].
  assert (Ht : existsb (fun u => String.eqb (Users.username u) name) us = true)
    by (apply existsb_exists; exists u; split; assumption).
  congruence.
Qed.

(** C8.  Whenever signing up creates the account, signing in with the
    same user name and secret yields the session of that user, with the
    user name as stored and the chosen role, and signing in with a
    secret of another digest is refused. *)
Theorem sign_up_then_sign_in :
  forall (d d' : db) (username secret role msg : string),
    login_sign_up username secret role d = (st_success msg, d') ->
    (exists uid,
       login_sign_in username secret d'
       = inl (mksession uid (strip username) role))
    /\ forall other,
         sha256_hexdigest other <> sha256_hexdigest secret ->
         exists n, login_sign_in username other d' = inr n.
Proof.
  intros d d' username secret role msg.
  unfold login_sign_up, login_sign_in, fetch_user, insert_user.
  remember (sha256_hexdigest secret) as digest eqn:Edigest.
  remember (strip username) as name eqn:Ename.
  destruct (truthy username); [|discriminate].
  destruct (truthy secret); [|discriminate].
  cbn [andb].
  destruct (existsb (fun u => String.eqb (Users.username u) name) (users d))
    eqn:Efresh; [discriminate|].
  intros H. injection H as _ <-. cbn [users].
  pose proof (not_taken name (users d) Efresh) as Hold.
  split.
  - eexists.
    rewrite find_app_none by (apply find_all_false; apply Hold).
    cbn [find Users.username Users.password].
    rewrite !String.eqb_refl. reflexivity.
  - intros other Hother.
    remember (sha256_hexdigest other) as digest' eqn:Edigest'.
    destruct (truthy other); [|eexists; reflexivity].
    rewrite find_app_none by (apply find_all_false; apply Hold).
    cbn [find Users.username Users.password].
    assert (E : String.eqb digest digest' = false).
    { apply String.eqb_neq. congruence. }
    rewrite String.eqb_refl, E. eexists. reflexivity.
Qed.

(** The example of the specification: once ann has signed up, ann signs
    in with "pw123", and the secret "wrong" is refused. *)
Lemma sign_up_then_sign_in_witness :
  let d' := snd (login_sign_up "ann" "pw123" "org" (init_db empty_db)) in
  (exists uid, login_sign_in "ann" "pw123" d' = inl (mksession uid "ann" "org"))
  /\ exists n, login_sign_in "ann" "wrong" d' = inr n.
Proof.
  destruct (@sign_up_then_sign_in (init_db empty_db)
              (snd (login_sign_up "ann" "pw123" "org" (init_db empty_db)))
              "ann" "pw123" "org" "ann created! Now Sign In above")
    as [H1 H2].
  - vm_compute. reflexivity.
  - split; [exact H1|].
    apply H2. vm_compute. discriminate.
Defined.

(** ** Listing complaints: the order of the result *)

Lemma ascii_compare_trans (a b c : ascii) :
  Ascii.compare a b <> Gt -> Ascii.compare b c <> Gt ->
  Ascii.compare a c <> Gt
  /\ (Ascii.compare a c = Eq ->
      Ascii.compare a b = Eq /\ Ascii.compare b c = Eq).
Proof.
  unfold Ascii.compare.
  destruct (N.compare_spec (N_of_ascii a) (N_of_ascii b));
    destruct (N.compare_spec (N_of_ascii b) (N_of_ascii c));
    destruct (N.compare_spec (N_of_ascii a) (N_of_ascii c));
    intros; split; intros; try split; try congruence; try lia.
Qed.

Lemma string_compare_trans (a : string) :
  forall b c,
    String.compare a b <> Gt -> String.compare b c <> Gt ->
    String.compare a c <> Gt.
Proof.
  induction a as [|x a IH]; intros [|y b] [|z c]; simpl; try congruence.
  intros Hab Hbc.
  assert (Hxy : Ascii.compare x y <> Gt)
    by (destruct (Ascii.compare x y); congruence).
  assert (Hyz : Ascii.compare y z <> Gt)
    by (destruct (Ascii.compare y z); congruence).
  destruct (ascii_compare_trans x y z Hxy Hyz) as [Hxz Heq].
  destruct (Ascii.compare x z) eqn:E; try congruence.
  destruct (Heq eq_refl) as [E1 E2]. rewrite E1 in Hab. rewrite E2 in Hbc.
  apply (IH b c Hab Hbc).
Qed.

Lemma text_le_iff (a b : string) : text_le a b <-> String.compare a b <> Gt.
Proof.
  unfold text_le, String.leb.
  destruct (String.compare a b); split; congruence.
Qed.

Lemma text_le_trans (a b c : string) :
  text_le a b -> text_le b c -> text_le a c.
Proof.
  rewrite !text_le_iff. apply string_compare_trans.
Qed.

Lemma text_le_total (a b : string) : text_le a b \/ text_le b a.
Proof. apply String.leb_total. Qed.

Lemma insert_desc_perm (r : Complaints.row) (rows : list Complaints.row) :
  Permutation (insert_desc r rows) (r :: rows).
Proof.
  induction rows as [|r' rows IH]; simpl; [apply Permutation_refl|].
  destruct (String.leb _ _); [apply Permutation_refl|].
  eapply perm_trans; [apply perm_skip; exact IH | apply perm_swap].
Qed.

Lemma order_by_perm (rows : list Complaints.row) :
  Permutation (order_by_complaint_datetime_desc rows) rows.
Proof.
  induction rows as [|r rows IH]; simpl; [constructor|].
  eapply perm_trans; [apply insert_desc_perm | apply perm_skip; exact IH].
Qed.

Lemma insert_desc_sorted (r : Complaints.row) (rows : list Complaints.row) :
  StronglySorted newest_first rows ->
  StronglySorted newest_first (insert_desc r rows).
Proof.
  induction 1 as [|r' rows Hs IH Hall]; simpl.
  - constructor; constructor.
  - destruct (String.leb (Complaints.complaint_datetime r')
                         (Complaints.complaint_datetime r)) eqn:E.
    + constructor; [constructor; assumption|].
      constructor; [exact E|].
      eapply Forall_impl; [|exact Hall].
      intros x Hx. unfold newest_first in *.
      eapply text_le_trans; [exact Hx | exact E].
    + constructor; [exact IH|].
      apply (Permutation_Forall (Permutation_sym (insert_desc_perm r rows))).
      constructor; [|exact Hall].
      unfold newest_first.
      destruct (text_le_total (Complaints.complaint_datetime r)
                              (Complaints.complaint_datetime r')) as [H|H];
        [exact H | unfold text_le in H; congruence].
Qed.

Lemma order_by_sorted (rows : list Complaints.row) :
  StronglySorted newest_first (order_by_complaint_datetime_desc rows).
Proof.
  induction rows as [|r rows IH]; simpl; [constructor|].
  apply insert_desc_sorted. exact IH.
Qed.

Lemma insert_desc_stable (t : string) (r : Complaints.row)
    (rows : list Complaints.row) :
  at_time t (insert_desc r rows) = at_time t (r :: rows).
Proof.
  induction rows as [|r' rows IH]; [reflexivity|].
  cbn [insert_desc].
  destruct (String.leb (Complaints.complaint_datetime r')
                       (Complaints.complaint_datetime r)) eqn:E;
    [reflexivity|].
  unfold at_time in *. cbn [filter] in *. rewrite IH.
  destruct (String.eqb (Complaints.complaint_datetime r) t) eqn:Er;
    [|reflexivity].
  destruct (String.eqb (Complaints.complaint_datetime r') t) eqn:Er';
    [|reflexivity].
  apply String.eqb_eq in Er, Er'. rewrite Er, Er' in E.
  destruct (String.leb_total t t) as [H|H]; congruence.
Qed.

Lemma order_by_stable (t : string) (rows : list Complaints.row) :
  at_time t (order_by_complaint_datetime_desc rows) = at_time t rows.
Proof.
  induction rows as [|r rows IH]; [reflexivity|].
  cbn [order_by_complaint_datetime_desc fold_right].
  rewrite insert_desc_stable.
  unfold at_time in *. cbn [filter].
  fold (order_by_complaint_datetime_desc rows). rewrite IH. reflexivity.
Qed.

(** ** Listing complaints: the problem filter *)

Lemma like_percent_unfold (p x : string) :
  like (String "%" p) x
  = like p x || match x with
                | EmptyString => false
                | String _ x' => like (String "%" p) x'
                end.
Proof. destruct x; reflexivity. Qed.



Lemma like_char (c : ascii) (p x : string) :
  Ascii.eqb c "%" = false -> Ascii.eqb c "_" = false ->
  like (String c p) x
  = match x with
    | EmptyString => false
    | String c2 x' => Ascii.eqb (to_lower c) (to_lower c2) && like p x'
    end.
Proof. intros H1 H2. simpl. rewrite H1, H2. reflexivity. Qed.




Lemma fetch_complaints_In (bus : option Z) (problem status : option string)
    (start_date end_date : option date) (d : db) (r : Complaints.row) :
  In r (fetch_complaints bus problem status start_date end_date d)
  <-> In r (complaints d)
      /\ selected (where_clauses bus problem status start_date end_date) r
         = true.
Proof.
  unfold fetch_complaints. rewrite <- filter_In. split; intros H.
  - eapply Permutation_in; [apply order_by_perm | exact H].
  - eapply Permutation_in; [apply Permutation_sym, order_by_perm | exact H].
Qed.






(** ** Resolution metrics *)

Lemma hours_of_seconds (micros : Z) :
  (Qmake micros 1000000 / 3600 == Qmake micros 3600000000)%Q.
Proof.
  unfold Qdiv, Qinv, Qmult, Qeq. cbn [Qnum Qden inject_Z]. lia.
Qed.

Lemma fromisoformat_empty : fromisoformat "" = Raised ValueError.
Proof. reflexivity. Qed.

(** The loop appends one duration for each resolved row, in the order of
    the rows, and fails on none of them when their timestamps parse. *)
Lemma metrics_loop (today_str : string) (rows : list Complaints.row) :
  Forall timestamps_parse rows ->
  forall (n : Z) (durations : list Q),
  exists (n' : Z) (more : list Q),
    fold_left (metrics_step today_str) rows (Returned (n, durations))
    = Returned (n', (durations ++ more)%list)
    /\ Forall2 Qeq more (map resolution_hours (filter is_resolved rows)).
Proof.
  induction 1 as [|r rows Hr _ IH]; intros n durations.
  - exists n, []. rewrite app_nil_r. split; [reflexivity | constructor].
  - cbn [fold_left filter]. unfold metrics_step at 2, is_resolved at 1.
    destruct (Complaints.resolved_at r) as [s|] eqn:Es.
    + destruct (Hr s Es) as [[resolved Hres] [created Hcre]].
      assert (Ht : truthy s = true).
      { destruct s; [rewrite fromisoformat_empty in Hres; discriminate|].
        reflexivity. }
      rewrite Ht, Hres, Hcre. cbv zeta.
      set (h := (total_seconds resolved created / 3600)%Q).
      assert (Hh : (h == Qmake (to_microseconds resolved
                                - to_microseconds created) 3600000000)%Q)
        by apply hours_of_seconds.
      destruct (String.eqb _ today_str).
      * destruct (IH (n + 1) (durations ++ [h])%list) as [n' [more [E F]]].
        exists n', (h :: more). rewrite E, <- app_assoc.
        split; [reflexivity|]. cbn [map]. unfold resolution_hours at 1.
        rewrite Es, Hres, Hcre. constructor; assumption.
      * destruct (IH n (durations ++ [h])%list) as [n' [more [E F]]].
        exists n', (h :: more). rewrite E, <- app_assoc.
        split; [reflexivity|]. cbn [map]. unfold resolution_hours at 1.
        rewrite Es, Hres, Hcre. constructor; assumption.
    + apply IH.
Qed.


Lemma Forall2_length {A B : Type} (R : A -> B -> Prop) (xs : list A)
    (ys : list B) :
  Forall2 R xs ys -> List.length xs = List.length ys.
Proof. induction 1; simpl; congruence. Qed.



(** ** Timestamps are read back as they were written *)

Lemma digit_of_decimal (n : Z) :
  0 <= n < 10 -> digit (ascii_of_N (Z.to_N (48 + n))) = Some n.
Proof.
  intros H. unfold digit.
  rewrite N_ascii_embedding by lia.
  replace ((48 <=? Z.to_N (48 + n))%N && (Z.to_N (48 + n) <=? 57)%N)
    with true.
  - f_equal. lia.
  - symmetry. apply andb_true_iff. split; apply N.leb_le; lia.
Qed.

(** Reading one more digit reads the digits before it first. *)
Lemma digits_snoc (k : nat) :
  forall (acc : Z) (s : string),
    digits (S k) acc s
    = match digits k acc s with
      | Some (v, String c s') =>
          match digit c with
          | Some dv => Some (10 * v + dv, s')
          | None => None
          end
      | _ => None
      end.
Proof.
  induction k as [|k IH]; intros acc s.
  - destruct s as [|c s]; simpl; [reflexivity|].
    destruct (digit c); reflexivity.
  - destruct s as [|c s]; [reflexivity|].
    change (digits (S (S k)) acc (String c s))
      with (match digit c with
            | Some v => digits (S k) (10 * acc + v) s
            | None => None
            end).
    change (digits (S k) acc (String c s))
      with (match digit c with
            | Some v => digits k (10 * acc + v) s
            | None => None
            end).
    destruct (digit c) as [v|]; [apply IH | reflexivity].
Qed.

Lemma digits_zero_padded (k : nat) :
  forall (n acc : Z) (rest : string),
    0 <= n < 10 ^ Z.of_nat k ->
    digits k acc (zero_padded k n ++ rest)
    = Some (acc * 10 ^ Z.of_nat k + n, rest).
Proof.
  induction k as [|k IH]; intros n acc rest Hn.
  - simpl in *. f_equal. f_equal. lia.
  - rewrite Nat2Z.inj_succ, Z.pow_succ_r in * by lia.
    cbn [zero_padded]. rewrite string_app_assoc. cbn [append].
    rewrite digits_snoc, IH.
    2:{ split; [apply Z.div_pos; lia|].
        apply Z.div_lt_upper_bound; lia. }
    rewrite digit_of_decimal by (apply Z.mod_pos_bound; lia).
    f_equal. f_equal.
    pose proof (Z.div_mod n 10). lia.
Qed.

Lemma read_field (k : nat) (n : Z) (rest : string) :
  0 <= n < 10 ^ Z.of_nat k ->
  digits k 0 (zero_padded k n ++ rest) = Some (n, rest).
Proof.
  intros H. rewrite digits_zero_padded by exact H. reflexivity.
Qed.

Lemma expect_same (c : ascii) (s : string) : expect c (String c s) = Some s.
Proof. unfold expect. rewrite Ascii.eqb_refl. reflexivity. Qed.

Lemma days_in_month_le (y m : Z) : days_in_month y m <= 31.
Proof.
  unfold days_in_month.
  destruct (m =? 2); [destruct (is_leap y); lia|].
  destruct ((m =? 4) || (m =? 6) || (m =? 9) || (m =? 11)); lia.
Qed.

Lemma valid_date_bounds (d : date) :
  valid_date d = true ->
  0 <= year d < 10 ^ 4 /\ 0 <= month d < 10 ^ 2 /\ 0 <= day d < 10 ^ 2.
Proof.
  unfold valid_date. rewrite !andb_true_iff, !Z.leb_le.
  pose proof (days_in_month_le (year d) (month d)). lia.
Qed.

Lemma valid_time_bounds (t : time) :
  valid_time t = true ->
  0 <= hour t < 10 ^ 2 /\ 0 <= minute t < 10 ^ 2 /\ 0 <= second t < 10 ^ 2
  /\ 0 <= microsecond t < 10 ^ 6.
Proof.
  unfold valid_time. rewrite !andb_true_iff, !Z.leb_le, !Z.ltb_lt. lia.
Qed.

Lemma parse_date_isoformat (d : date) (rest : string) :
  valid_date d = true ->
  parse_date (date_isoformat d ++ rest) = Some (d, rest).
Proof.
  intros H. destruct (valid_date_bounds d H) as [Hy [Hm Hd]].
  unfold parse_date, date_isoformat.
  rewrite !string_app_assoc.
  rewrite (read_field 4) by exact Hy. cbn [append]. rewrite expect_same.
  rewrite (read_field 2) by exact Hm. cbn [append]. rewrite expect_same.
  rewrite (read_field 2) by exact Hd.
  destruct d; reflexivity.
Qed.

Lemma parse_time_isoformat (t : time) :
  valid_time t = true ->
  parse_time
    (zero_padded 2 (hour t) ++ ":" ++ zero_padded 2 (minute t) ++ ":"
     ++ zero_padded 2 (second t)
     ++ (if microsecond t =? 0 then ""
         else "." ++ zero_padded 6 (microsecond t)))
  = Some t.
Proof.
  intros H. destruct (valid_time_bounds t H) as [Hh [Hm [Hs Hu]]].
  unfold parse_time.
  rewrite (read_field 2) by exact Hh. cbn [append]. rewrite expect_same.
  rewrite (read_field 2) by exact Hm. cbn [append]. rewrite expect_same.
  rewrite (read_field 2) by exact Hs.
  destruct (microsecond t =? 0) eqn:E.
  - apply Z.eqb_eq in E. destruct t; simpl in *. subst. reflexivity.
  - cbn [append]. rewrite Ascii.eqb_refl.
    rewrite <- (string_app_nil_r (zero_padded 6 (microsecond t))).
    rewrite (read_field 6) by exact Hu.
    destruct t; reflexivity.
Qed.

(** [fromisoformat] undoes [isoformat]. *)
Lemma fromisoformat_isoformat (dt : datetime) :
  valid_datetime dt = true ->
  fromisoformat (datetime_isoformat dt) = Returned dt.
Proof.
  unfold valid_datetime. intros H.
  destruct (proj1 (andb_true_iff _ _) H) as [Hd Ht].
  unfold fromisoformat, datetime_isoformat.
  rewrite parse_date_isoformat by exact Hd. cbn [append].
  rewrite parse_time_isoformat by exact Ht.
  rewrite Hd, Ht. destruct dt; reflexivity.
Qed.

(** ** Every stored timestamp is a timestamp *)

Lemma stored_timestamps_parse (r : Complaints.row) :
  stored_timestamps r -> timestamps_parse r.
Proof.
  intros [Hc Hr] s Hs. split; [exact (Hr s Hs) | exact Hc].
Qed.

Lemma update_where_id_timestamps (complaint_id : Z)
    (set : Complaints.row -> Complaints.row) (d : db) :
  (forall r, stored_timestamps r -> stored_timestamps (set r)) ->
  Forall stored_timestamps (complaints d) ->
  Forall stored_timestamps (complaints (update_where_id complaint_id set d)).
Proof.
  intros Hset H. unfold update_where_id; cbn [complaints].
  apply Forall_map. eapply Forall_impl; [|exact H].
  intros r Hr. destruct (Complaints.id r =? complaint_id); auto.
Qed.

Lemma insert_user_complaints (username password role : string) (d : db) :
  complaints (snd (insert_user username password role d)) = complaints d.
Proof.
  unfold insert_user. destruct (existsb _ _); reflexivity.
Qed.

Lemma init_db_complaints (d : db) : complaints (init_db d) = complaints d.
Proof.
  unfold init_db. cbn [fold_left]. unfold insert_or_ignore_user.
  rewrite !insert_user_complaints. reflexivity.
Qed.

Lemma login_sign_up_complaints (name secret role : string) (d : db) :
  complaints (snd (login_sign_up name secret role d)) = complaints d.
Proof.
  unfold login_sign_up.
  destruct (truthy name && truthy secret); [|reflexivity].
  pose proof (insert_user_complaints (strip name) (sha256_hexdigest secret)
                role d) as E.
  destruct (insert_user (strip name) (sha256_hexdigest secret) role d)
    as [[u|e] d']; cbn [snd] in *; exact E.
Qed.

Lemma perform_timestamps (a : action) (d : db) :
  well_formed a ->
  Forall stored_timestamps (complaints d) ->
  Forall stored_timestamps (complaints (perform a d)).
Proof.
  intros Hwf H.
  destruct a as [| bus cd ct pt details paths utcnow
                | cid status response utcnow
                | cid reaction utcnow
                | name secret role];
    cbn [perform well_formed] in *.
  - rewrite init_db_complaints. exact H.
  - destruct Hwf as [_ [_ Hclock]].
    pose proof (fromisoformat_isoformat utcnow Hclock) as Hnow.
    unfold principal_page_submit.
    destruct (negb (truthy (strip details))); [exact H|].
    unfold insert_complaint; cbn [snd complaints].
    apply Forall_app. split; [exact H|]. constructor; [|constructor].
    split; cbn [Complaints.created_at Complaints.resolved_at].
    + eexists. exact Hnow.
    + discriminate.
  - pose proof (fromisoformat_isoformat utcnow Hwf) as Hnow.
    unfold update_complaint_status; cbn [snd].
    apply update_where_id_timestamps; [|exact H].
    intros r [Hc Hr].
    split; cbn [Complaints.created_at Complaints.resolved_at]; [exact Hc|].
    destruct (String.eqb status "Resolved"); [|exact Hr].
    intros s Hs. injection Hs as <-. eexists. exact Hnow.
  - unfold set_chairman_reaction; cbn [snd].
    apply update_where_id_timestamps; [|exact H].
    intros r [Hc Hr]. split; assumption.
  - rewrite login_sign_up_complaints. exact H.
Qed.

(** In every store the application can reach, the timestamps of every
    complaint read back. *)
Lemma reachable_timestamps (d : db) :
  reachable d -> Forall stored_timestamps (complaints d).
Proof.
  induction 1 as [|a d _ IH Hwf].
  - constructor.
  - apply perform_timestamps; assumption.
Qed.

(** Hence the metrics of any listing of a reachable store are computed
    without error. *)
Lemma metrics_of_reachable_store (d : db) (bus : option Z)
    (problem status : option string) (start_date end_date : option date)
    (today : date) :
  reachable d ->
  exists result,
    compute_resolution_metrics
      (fetch_complaints bus problem status start_date end_date d) today
    = Returned result.
Proof.
  intros Hd.
  assert (Hrows : Forall timestamps_parse
                    (fetch_complaints bus problem status start_date end_date d)).
  { apply Forall_forall. intros r Hr.
    apply stored_timestamps_parse.
    apply fetch_complaints_In in Hr. destruct Hr as [Hr _].
    exact (proj1 (Forall_forall _ _) (reachable_timestamps Hd) r Hr). }
  destruct (metrics_loop (date_isoformat today) Hrows 0 [])
    as [n [more [E _]]].
  unfold compute_resolution_metrics. rewrite E.
  eexists. reflexivity.
Qed.

(** ** The digest on known inputs *)

(** The empty message, a one-block message and a two-block message of
    the published SHA-256 examples. *)
Lemma sha256_hexdigest_examples :
  sha256_hexdigest ""
  = "e3b0c44298fc1c149afbf4c8996fb92427ae41e4649b934ca495991b7852b855"
  /\ sha256_hexdigest "abc"
     = "ba7816bf8f01cfea414140de5dae2223b00361a396177a9cb410ff61f20015ad"
  /\ sha256_hexdigest
       "abcdbcdecdefdefgefghfghighijhijkijkljklmklmnlmnomnopnopq"
     = "248d6a61d20638b8e5c026930c3e6039a33ce45964ff2167f6ecedd419db06c1".
Proof.
  repeat split; vm_compute; reflexivity.
Qed.

(** The default users of [init_db] are stored with their passwords as
    written, while [fetch_user] compares digests: none of them can sign
    in with the password of the seed list. *)
Lemma default_users_cannot_sign_in :
  login_sign_in "principal" "principal123" (init_db empty_db)
  = inr (st_error "Wrong username/password")
  /\ login_sign_in "org" "org123" (init_db empty_db)
     = inr (st_error "Wrong username/password")
  /\ login_sign_in "chairman" "chairman123" (init_db empty_db)
     = inr (st_error "Wrong username/password").
Proof.
  repeat split; vm_compute; reflexivity.
Qed.

(** ** The text of a timestamp sorts as the time it denotes *)

Lemma compare_decimal_digits (a b : Z) :
  0 <= a < 10 -> 0 <= b < 10 ->
  Ascii.compare (ascii_of_N (Z.to_N (48 + a))) (ascii_of_N (Z.to_N (48 + b)))
  = (a ?= b).
Proof.
  intros Ha Hb. unfold Ascii.compare.
  rewrite !N_ascii_embedding by lia.
  rewrite Z2N.inj_compare by lia.
  apply Z.add_compare_mono_l.
Qed.

Lemma compare_by_digits (a b : Z) (c : comparison) :
  match a / 10 ?= b / 10 with
  | Eq => match a mod 10 ?= b mod 10 with Eq => c | o => o end
  | o => o
  end
  = match a ?= b with Eq => c | o => o end.
Proof.
  destruct (Z.compare_spec (a / 10) (b / 10));
    destruct (Z.compare_spec (a mod 10) (b mod 10));
    destruct (Z.compare_spec a b); try reflexivity; exfalso;
    Z.div_mod_to_equations; lia.
Qed.

(** Two fields of the same width compare as the numbers they show. *)
Lemma compare_zero_padded (k : nat) :
  forall (a b : Z) (s1 s2 : string),
    0 <= a < 10 ^ Z.of_nat k -> 0 <= b < 10 ^ Z.of_nat k ->
    String.compare (zero_padded k a ++ s1) (zero_padded k b ++ s2)
    = match a ?= b with Eq => String.compare s1 s2 | o => o end.
Proof.
  induction k as [|k IH]; intros a b s1 s2 Ha Hb.
  - simpl in *. replace a with 0 by lia. replace b with 0 by lia.
    reflexivity.
  - rewrite Nat2Z.inj_succ, Z.pow_succ_r in * by lia.
    cbn [zero_padded]. rewrite !string_app_assoc. cbn [append].
    rewrite IH.
    2,3: split; [apply Z.div_pos; lia | apply Z.div_lt_upper_bound; lia].
    cbn [String.compare].
    rewrite compare_decimal_digits by (apply Z.mod_pos_bound; lia).
    apply compare_by_digits.
Qed.

Lemma compare_same_head (c : ascii) (s1 s2 : string) :
  String.compare (String c s1) (String c s2) = String.compare s1 s2.
Proof.
  cbn [String.compare].
  replace (Ascii.compare c c) with Eq; [reflexivity|].
  symmetry. unfold Ascii.compare. apply N.compare_refl.
Qed.

(** The optional fraction of a second. *)
Lemma compare_fraction (u1 u2 : Z) :
  0 <= u1 < 10 ^ 6 -> 0 <= u2 < 10 ^ 6 ->
  String.compare (if u1 =? 0 then "" else "." ++ zero_padded 6 u1)
                 (if u2 =? 0 then "" else "." ++ zero_padded 6 u2)
  = (u1 ?= u2).
Proof.
  intros H1 H2.
  destruct (Z.eqb_spec u1 0) as [->|N1]; destruct (Z.eqb_spec u2 0) as [->|N2].
  - reflexivity.
  - symmetry. apply Z.compare_lt_iff. lia.
  - symmetry. apply Z.compare_gt_iff. lia.
  - cbn [append]. rewrite compare_same_head.
    rewrite <- (string_app_nil_r (zero_padded 6 u1)).
    rewrite <- (string_app_nil_r (zero_padded 6 u2)).
    rewrite (@compare_zero_padded 6) by assumption.
    destruct (u1 ?= u2); reflexivity.
Qed.

(** The text of two timestamps compares as their fields do. *)
Lemma compare_isoformat_fields (dt1 dt2 : datetime) :
  valid_datetime dt1 = true -> valid_datetime dt2 = true ->
  String.compare (datetime_isoformat dt1) (datetime_isoformat dt2)
  = lex_compare (fields dt1) (fields dt2).
Proof.
  unfold valid_datetime. rewrite !andb_true_iff.
  intros [Hd1 Ht1] [Hd2 Ht2].
  destruct (valid_date_bounds _ Hd1) as [Hy1 [Hm1 Hdd1]].
  destruct (valid_date_bounds _ Hd2) as [Hy2 [Hm2 Hdd2]].
  destruct (valid_time_bounds _ Ht1) as [Hh1 [Hmi1 [Hs1 Hu1]]].
  destruct (valid_time_bounds _ Ht2) as [Hh2 [Hmi2 [Hs2 Hu2]]].
  unfold datetime_isoformat, date_isoformat, fields.
  rewrite !string_app_assoc. cbn [lex_compare].
  rewrite (@compare_zero_padded 4) by assumption.
  cbn [append]. rewrite compare_same_head.
  rewrite (@compare_zero_padded 2) by assumption.
  cbn [append]. rewrite compare_same_head.
  rewrite (@compare_zero_padded 2) by assumption.
  cbn [append]. rewrite compare_same_head.
  rewrite (@compare_zero_padded 2) by assumption.
  cbn [append]. rewrite compare_same_head.
  rewrite (@compare_zero_padded 2) by assumption.
  cbn [append]. rewrite compare_same_head.
  rewrite (@compare_zero_padded 2) by assumption.
  rewrite compare_fraction by assumption.
  destruct (microsecond (dt_time dt1) ?= microsecond (dt_time dt2));
    reflexivity.
Qed.

Ltac decide_compare :=
  match goal with
  | |- (?c + _ ?= ?c + _) = (_ ?= _) => apply Z.add_compare_mono_l
  | |- (_ ?= _) = Lt => apply Z.compare_lt_iff; lia
  | |- (_ ?= _) = Gt => apply Z.compare_gt_iff; lia
  | |- (_ ?= _) = Eq => apply Z.compare_eq_iff; lia
  end.

Ltac month_cases m :=
  let H := fresh "Hm" in
  assert (H : m = 1 \/ m = 2 \/ m = 3 \/ m = 4 \/ m = 5 \/ m = 6 \/ m = 7
              \/ m = 8 \/ m = 9 \/ m = 10 \/ m = 11 \/ m = 12) by lia;
  repeat (destruct H as [H|H]; [subst m|]); [..|subst m].

(** Evaluates the table lookups and the tests on a known month. *)
Ltac eval_month :=
  repeat match goal with
  | |- context [nth ?n ?l ?d] =>
      let v := eval vm_compute in (nth n l d) in
      change (nth n l d) with v
  | |- context [if ?b then ?x else ?y] =>
      let v := eval vm_compute in b in
      first [constr_eq v true | constr_eq v false];
      change (if b then x else y) with (if v then x else y); cbv iota
  | H : context [if ?b then ?x else ?y] |- _ =>
      let v := eval vm_compute in b in
      first [constr_eq v true | constr_eq v false];
      change (if b then x else y) with (if v then x else y) in H;
      cbv iota in H
  | |- context [match (?a ?= ?b) with Eq => ?x | Lt => ?y | Gt => ?z end] =>
      let v := eval vm_compute in (a ?= b) in
      first [constr_eq v Eq | constr_eq v Lt | constr_eq v Gt];
      change (match (a ?= b) with Eq => x | Lt => y | Gt => z end)
        with (match v with Eq => x | Lt => y | Gt => z end);
      cbv iota
  end.

Lemma days_before_year_succ (y : Z) :
  days_before_year (y + 1)
  = days_before_year y + 365 + (if is_leap y then 1 else 0).
Proof.
  unfold days_before_year, is_leap.
  replace (y + 1 - 1) with y by lia.
  destruct (Z.eqb_spec (y mod 4) 0); destruct (Z.eqb_spec (y mod 100) 0);
    destruct (Z.eqb_spec (y mod 400) 0); cbn [andb orb negb];
    Z.div_mod_to_equations; lia.
Qed.

Lemma days_before_year_mono (a b : Z) :
  a <= b -> days_before_year a <= days_before_year b.
Proof.
  unfold days_before_year. intros H. Z.div_mod_to_equations. lia.
Qed.

Lemma day_of_year_bounds (leap : bool) (m d : Z) :
  1 <= m <= 12 ->
  1 <= d <= (if m =? 2 then (if leap then 29 else 28)
             else if (m =? 4) || (m =? 6) || (m =? 9) || (m =? 11) then 30
             else 31) ->
  1 <= nth (Z.to_nat (m - 1))
           [0; 31; 59; 90; 120; 151; 181; 212; 243; 273; 304; 334] 0
       + (if (2 <? m) && leap then 1 else 0) + d
    <= 365 + (if leap then 1 else 0).
Proof.
  intros Hm Hd. month_cases m; destruct leap; eval_month; lia.
Qed.

Lemma day_of_year_compare (leap : bool) (m1 d1 m2 d2 : Z) :
  1 <= m1 <= 12 ->
  1 <= d1 <= (if m1 =? 2 then (if leap then 29 else 28)
              else if (m1 =? 4) || (m1 =? 6) || (m1 =? 9) || (m1 =? 11)
                   then 30
              else 31) ->
  1 <= m2 <= 12 ->
  1 <= d2 <= (if m2 =? 2 then (if leap then 29 else 28)
              else if (m2 =? 4) || (m2 =? 6) || (m2 =? 9) || (m2 =? 11)
                   then 30
              else 31) ->
  (nth (Z.to_nat (m1 - 1))
       [0; 31; 59; 90; 120; 151; 181; 212; 243; 273; 304; 334] 0
   + (if (2 <? m1) && leap then 1 else 0) + d1
   ?= nth (Z.to_nat (m2 - 1))
          [0; 31; 59; 90; 120; 151; 181; 212; 243; 273; 304; 334] 0
      + (if (2 <? m2) && leap then 1 else 0) + d2)
  = match m1 ?= m2 with Eq => d1 ?= d2 | o => o end.
Proof.
  intros Hm1 Hd1 Hm2 Hd2.
  month_cases m1; month_cases m2; destruct leap; eval_month;
    decide_compare.
Qed.

(** Day numbers compare as year, month and day do. *)
Lemma ymd2ord_compare (d1 d2 : date) :
  valid_date d1 = true -> valid_date d2 = true ->
  (ymd2ord d1 ?= ymd2ord d2)
  = lex_compare [year d1; month d1; day d1] [year d2; month d2; day d2].
Proof.
  unfold valid_date. rewrite !andb_true_iff, !Z.leb_le.
  intros [[[[[Hy1 Hy1'] Hm1] Hm1'] Hd1] Hd1'].
  intros [[[[[Hy2 Hy2'] Hm2] Hm2'] Hd2] Hd2'].
  unfold ymd2ord, days_before_month, days_in_month in *.
  cbn [lex_compare].
  pose proof (@day_of_year_bounds (is_leap (year d1)) (month d1) (day d1)
                (conj Hm1 Hm1') (conj Hd1 Hd1')) as B1.
  pose proof (@day_of_year_bounds (is_leap (year d2)) (month d2) (day d2)
                (conj Hm2 Hm2') (conj Hd2 Hd2')) as B2.
  destruct (Z.compare_spec (year d1) (year d2)) as [E|L|G].
  - rewrite E in *. rewrite <- !Z.add_assoc, Z.add_compare_mono_l.
    rewrite !Z.add_assoc.
    rewrite (@day_of_year_compare (is_leap (year d2)) (month d1) (day d1)
               (month d2) (day d2))
      by (split; assumption).
    destruct (month d1 ?= month d2); try reflexivity.
    destruct (day d1 ?= day d2); reflexivity.
  - apply Z.compare_lt_iff.
    pose proof (days_before_year_succ (year d1)).
    pose proof (@days_before_year_mono (year d1 + 1) (year d2)).
    lia.
  - apply Z.compare_gt_iff.
    pose proof (days_before_year_succ (year d2)).
    pose proof (@days_before_year_mono (year d2 + 1) (year d1)).
    lia.
Qed.

Lemma valid_time_ranges (t : time) :
  valid_time t = true ->
  0 <= hour t < 24 /\ 0 <= minute t < 60 /\ 0 <= second t < 60
  /\ 0 <= microsecond t < 1000000.
Proof.
  unfold valid_time. rewrite !andb_true_iff, !Z.leb_le, !Z.ltb_lt. lia.
Qed.

(** Timestamps compare in time as their fields do. *)
Lemma to_microseconds_compare (dt1 dt2 : datetime) :
  valid_datetime dt1 = true -> valid_datetime dt2 = true ->
  (to_microseconds dt1 ?= to_microseconds dt2)
  = lex_compare (fields dt1) (fields dt2).
Proof.
  unfold valid_datetime. rewrite !andb_true_iff.
  intros [Hd1 Ht1] [Hd2 Ht2].
  pose proof (ymd2ord_compare _ _ Hd1 Hd2) as Hord.
  destruct (valid_time_ranges _ Ht1) as [Hh1 [Hmi1 [Hs1 Hu1]]].
  destruct (valid_time_ranges _ Ht2) as [Hh2 [Hmi2 [Hs2 Hu2]]].
  unfold fields, to_microseconds. cbn [lex_compare] in *.
  assert (Hsplit :
    match year (dt_date dt1) ?= year (dt_date dt2) with
    | Eq =>
        match month (dt_date dt1) ?= month (dt_date dt2) with
        | Eq =>
            match day (dt_date dt1) ?= day (dt_date dt2) with
            | Eq =>
                lex_compare
                  [hour (dt_time dt1); minute (dt_time dt1);
                   second (dt_time dt1); microsecond (dt_time dt1)]
                  [hour (dt_time dt2); minute (dt_time dt2);
                   second (dt_time dt2); microsecond (dt_time dt2)]
            | o => o
            end
        | o => o
        end
    | o => o
    end
    = match ymd2ord (dt_date dt1) ?= ymd2ord (dt_date dt2) with
      | Eq =>
          lex_compare
            [hour (dt_time dt1); minute (dt_time dt1);
             second (dt_time dt1); microsecond (dt_time dt1)]
            [hour (dt_time dt2); minute (dt_time dt2);
             second (dt_time dt2); microsecond (dt_time dt2)]
      | o => o
      end).
  { rewrite Hord.
    destruct (year (dt_date dt1) ?= year (dt_date dt2)); try reflexivity.
    destruct (month (dt_date dt1) ?= month (dt_date dt2)); try reflexivity.
    destruct (day (dt_date dt1) ?= day (dt_date dt2)); reflexivity. }
  cbn [lex_compare] in Hsplit. rewrite Hsplit. clear Hsplit Hord.
  generalize dependent (ymd2ord (dt_date dt1)).
  generalize dependent (ymd2ord (dt_date dt2)).
  intros o2 o1.
  destruct (Z.compare_spec o1 o2);
    destruct (Z.compare_spec (hour (dt_time dt1)) (hour (dt_time dt2)));
    destruct (Z.compare_spec (minute (dt_time dt1)) (minute (dt_time dt2)));
    destruct (Z.compare_spec (second (dt_time dt1)) (second (dt_time dt2)));
    destruct (Z.compare_spec (microsecond (dt_time dt1))
                             (microsecond (dt_time dt2)));
    cbv iota; decide_compare.
Qed.

(** The text that [isoformat] writes sorts as the time it denotes. *)
Lemma isoformat_order (dt1 dt2 : datetime) :
  valid_datetime dt1 = true -> valid_datetime dt2 = true ->
  (text_le (datetime_isoformat dt1) (datetime_isoformat dt2)
   <-> to_microseconds dt1 <= to_microseconds dt2).
Proof.
  intros H1 H2. rewrite text_le_iff.
  rewrite (compare_isoformat_fields _ _ H1 H2).
  rewrite <- (to_microseconds_compare _ _ H1 H2).
  apply iff_refl.
Qed.

(** ** Listing complaints: newest first *)

Lemma update_where_id_incident (complaint_id : Z)
    (set : Complaints.row -> Complaints.row) (d : db) :
  (forall r, Complaints.complaint_datetime (set r)
             = Complaints.complaint_datetime r) ->
  Forall incident_written (complaints d) ->
  Forall incident_written (complaints (update_where_id complaint_id set d)).
Proof.
  intros Hset H. unfold update_where_id; cbn [complaints].
  apply Forall_map. eapply Forall_impl; [|exact H].
  intros r [dt [Hv Hr]].
  destruct (Complaints.id r =? complaint_id); [|exists dt; auto].
  exists dt. split; [exact Hv|]. rewrite Hset. exact Hr.
Qed.

Lemma perform_incident (a : action) (d : db) :
  well_formed a ->
  Forall incident_written (complaints d) ->
  Forall incident_written (complaints (perform a d)).
Proof.
  intros Hwf H.
  destruct a as [| bus cd ct pt details paths utcnow
                | cid status response utcnow
                | cid reaction utcnow
                | name secret role];
    cbn [perform well_formed] in *.
  - rewrite init_db_complaints. exact H.
  - destruct Hwf as [Hcd [Hct _]].
    unfold principal_page_submit.
    destruct (negb (truthy (strip details))); [exact H|].
    unfold insert_complaint; cbn [snd complaints].
    apply Forall_app. split; [exact H|]. constructor; [|constructor].
    exists (datetime_combine cd ct). split; [|reflexivity].
    unfold valid_datetime, datetime_combine; cbn [dt_date dt_time].
    rewrite Hcd, Hct. reflexivity.
  - unfold update_complaint_status; cbn [snd].
    apply update_where_id_incident; [reflexivity | exact H].
  - unfold set_chairman_reaction; cbn [snd].
    apply update_where_id_incident; [reflexivity | exact H].
  - rewrite login_sign_up_complaints. exact H.
Qed.

(** In every store the application can reach, the incident time of
    every complaint is as [isoformat] wrote it. *)
Lemma reachable_incident (d : db) :
  reachable d -> Forall incident_written (complaints d).
Proof.
  induction 1 as [|a d _ IH Hwf].
  - constructor.
  - apply perform_incident; assumption.
Qed.

(** On such rows the order of the texts is the order of the times. *)
Lemma newest_first_not_earlier (a b : Complaints.row) :
  incident_written a -> incident_written b ->
  newest_first a b -> not_earlier a b.
Proof.
  intros [da [Va Ea]] [db0 [Vb Eb]].
  unfold newest_first, not_earlier, incident_time. rewrite Ea, Eb.
  rewrite !fromisoformat_isoformat by assumption.
  apply isoformat_order; assumption.
Qed.

Lemma StronglySorted_among {A : Type} (R R' : A -> A -> Prop) (l : list A) :
  (forall a b, In a l -> In b l -> R a b -> R' a b) ->
  StronglySorted R l -> StronglySorted R' l.
Proof.
  intros Himp H. induction H as [|a l Hs IH Hall]; constructor.
  - apply IH. intros x y Hx Hy. apply Himp; right; assumption.
  - apply Forall_forall. intros x Hx.
    apply Himp; [left; reflexivity | right; exact Hx |].
    exact (proj1 (Forall_forall _ _) Hall x Hx).
Qed.

(** *** Ids grow along the table *)

Lemma next_rowid_above (seq : Z) (ids : list Z) :
  Forall (fun x => x < next_rowid seq ids) ids.
Proof.
  unfold next_rowid. induction ids as [|x ids IH]; constructor.
  - cbn [fold_right]. lia.
  - eapply Forall_impl; [|exact IH].
    intros y Hy. cbn beta in Hy. cbn [fold_right]. lia.
Qed.

Lemma increasing_snoc (xs : list Z) (x : Z) :
  StronglySorted Z.lt xs -> Forall (fun y => y < x) xs ->
  StronglySorted Z.lt (xs ++ [x])%list.
Proof.
  induction 1 as [|y xs Hs IH Hall]; intros Hx; cbn [app].
  - constructor; constructor.
  - inversion Hx as [|? ? Hyx Hrest]; subst.
    constructor; [apply IH; exact Hrest|].
    apply Forall_app. split; [exact Hall | constructor; [exact Hyx|constructor]].
Qed.

Lemma increasing_filter (f : Complaints.row -> bool)
    (rows : list Complaints.row) :
  StronglySorted Z.lt (map Complaints.id rows) ->
  StronglySorted Z.lt (map Complaints.id (filter f rows)).
Proof.
  induction rows as [|r rows IH]; cbn [map filter]; intros H; [constructor|].
  apply StronglySorted_inv in H. destruct H as [Hs Hall].
  destruct (f r); [|apply IH; exact Hs].
  cbn [map]. constructor; [apply IH; exact Hs|].
  apply Forall_forall. intros x Hx.
  apply in_map_iff in Hx. destruct Hx as [r' [<- Hr']].
  apply filter_In in Hr'. destruct Hr' as [Hr' _].
  apply (proj1 (Forall_forall _ _) Hall). apply in_map. exact Hr'.
Qed.

Lemma update_where_id_ids (complaint_id : Z)
    (set : Complaints.row -> Complaints.row) (d : db) :
  (forall r, Complaints.id (set r) = Complaints.id r) ->
  map Complaints.id (complaints (update_where_id complaint_id set d))
  = map Complaints.id (complaints d).
Proof.
  intros Hset. unfold update_where_id; cbn [complaints].
  rewrite map_map. apply map_ext. intros r.
  destruct (Complaints.id r =? complaint_id); [apply Hset | reflexivity].
Qed.

Lemma perform_ids (a : action) (d : db) :
  StronglySorted Z.lt (map Complaints.id (complaints d)) ->
  StronglySorted Z.lt (map Complaints.id (complaints (perform a d))).
Proof.
  intros H.
  destruct a as [| bus cd ct pt details paths utcnow
                | cid status response utcnow
                | cid reaction utcnow
                | name secret role];
    cbn [perform].
  - rewrite init_db_complaints. exact H.
  - unfold principal_page_submit.
    destruct (negb (truthy (strip details))); [exact H|].
    unfold insert_complaint; cbn [snd complaints].
    rewrite map_app. cbn [map Complaints.id].
    apply increasing_snoc; [exact H | apply next_rowid_above].
  - unfold update_complaint_status; cbn [snd].
    rewrite update_where_id_ids by reflexivity. exact H.
  - unfold set_chairman_reaction; cbn [snd].
    rewrite update_where_id_ids by reflexivity. exact H.
  - rewrite login_sign_up_complaints. exact H.
Qed.

(** In every store the application can reach, the ids of the complaints
    grow along the table: no id occurs twice, and a complaint created
    later has the greater id. *)
Lemma reachable_ids (d : db) :
  reachable d -> StronglySorted Z.lt (map Complaints.id (complaints d)).
Proof.
  induction 1 as [|a d _ IH _].
  - constructor.
  - apply perform_ids. exact IH.
Qed.

(** C6, as the code has it.  For every filter the listing holds the
    selected complaints, each once, ordered by the text of the incident
    time, greatest first; complaints with the same incident time are not
    reordered by id: they stay in the order of the table.  In a store
    the application can reach the text sorts as the time and the ids
    grow along the table, so that the listing is newest first, with
    complaints of the same incident time by ascending id. *)
Theorem fetch_complaints_order :
  forall (bus : option Z) (problem status : option string)
         (start_date end_date : option date) (d : db),
    let chosen :=
      filter (selected (where_clauses bus problem status start_date end_date))
             (complaints d) in
    let rows := fetch_complaints bus problem status start_date end_date d in
    StronglySorted newest_first rows
    /\ Permutation rows chosen
    /\ (forall t, at_time t rows = at_time t chosen)
    /\ (reachable d ->
        StronglySorted not_earlier rows
        /\ forall t,
             StronglySorted Z.lt (map Complaints.id (at_time t rows))).
Proof.
  intros. subst rows chosen. unfold fetch_complaints.
  split; [apply order_by_sorted|].
  split; [apply order_by_perm|].
  split; [intros t; apply order_by_stable|].
  intros Hd. split.
  - apply (StronglySorted_among (R := newest_first)); [|apply order_by_sorted].
    pose proof (reachable_incident Hd) as Hall.
    assert (Hin : forall r,
              In r (order_by_complaint_datetime_desc
                      (filter (selected (where_clauses bus problem status
                                           start_date end_date))
                              (complaints d))) ->
              incident_written r).
    { intros r Hr.
      apply (Permutation_in _ (order_by_perm _)) in Hr.
      apply filter_In in Hr. destruct Hr as [Hr _].
      exact (proj1 (Forall_forall _ _) Hall r Hr). }
    intros a b Ha Hb. apply newest_first_not_earlier; auto.
  - intros t. rewrite order_by_stable. unfold at_time.
    apply increasing_filter, increasing_filter, reachable_ids. exact Hd.
Qed.

Lemma db_two_same_time_reachable : reachable db_two_same_time.
Proof.
  change db_two_same_time
    with (perform (Submit 7 (mkdate 2024 3 1) (mktime 8 0 0 0)
                     "Fight" "pushing at the door" [] (at_clock 1 10 0))
            (perform (SaveUpdate 1 "Resolved" (Some "Driver rerouted")
                        (at_clock 1 9 30))
               (perform (Submit 12 (mkdate 2024 3 1) (mktime 8 0 0 0)
                           "Delay" "15 min late" [] (at_clock 1 8 0))
                  empty_db))).
  repeat (apply reachable_step; [|cbn; repeat split; reflexivity]).
  apply reachable_empty.
Qed.

Lemma fetch_complaints_order_witness :
  StronglySorted not_earlier
    (fetch_complaints None None None None None db_two_same_time)
  /\ forall t,
       StronglySorted Z.lt
         (map Complaints.id
            (at_time t
               (fetch_complaints None None None None None db_two_same_time))).
Proof.
  apply (proj2 (proj2 (proj2
           (@fetch_complaints_order None None None None None
              db_two_same_time)))).
  exact db_two_same_time_reachable.
Defined.

(** C6, as stated, fails: complaints 1 and 2 of [db_two_same_time] have
    the same incident time, and the unfiltered listing gives 1 before
    2, not the greater id first. *)
Lemma same_time_complaints_listed_by_ascending_id :
  map (fun r => (Complaints.id r, Complaints.complaint_datetime r))
      (fetch_complaints None None None None None db_two_same_time)
  = [(1, "2024-03-01T08:00:00"); (2, "2024-03-01T08:00:00")].
Proof.
  vm_compute. reflexivity.
Qed.

(** * Further properties of the code *)

(** ** The users table *)

Lemma insert_user_users (n p r : string) (d : db) :
  users (snd (insert_user n p r d))
  = if has_user n d then users d
    else (users d
          ++ [Users.mk (next_rowid (users_seq d) (map Users.id (users d)))
                n p r])%list.
Proof. unfold insert_user, has_user. destruct (existsb _ _); reflexivity. Qed.

Lemma insert_user_noop (n p r : string) (d : db) :
  has_user n d = true -> snd (insert_user n p r d) = d.
Proof. unfold insert_user, has_user. intros ->. reflexivity. Qed.

Lemma has_user_insert (n p r m : string) (d : db) :
  has_user m (snd (insert_user n p r d)) = has_user m d || String.eqb n m.
Proof.
  unfold has_user at 1. rewrite insert_user_users.
  destruct (has_user n d) eqn:E.
  - fold (has_user m d). destruct (String.eqb_spec n m) as [<-|_].
    + rewrite E. reflexivity.
    + rewrite orb_false_r. reflexivity.
  - rewrite existsb_app. cbn [existsb Users.username].
    rewrite orb_false_r. reflexivity.
Qed.

Lemma init_db_unfold (d : db) :
  init_db d
  = snd (insert_user "chairman" "chairman123" "chairman"
           (snd (insert_user "org" "org123" "org"
                   (snd (insert_user "principal" "principal123" "principal"
                           d))))).
Proof. reflexivity. Qed.

Lemma init_db_has_seeded (d : db) (name : string) :
  In name seeded_names -> has_user name (init_db d) = true.
Proof.
  intros H. rewrite init_db_unfold, !has_user_insert.
  destruct H as [<-|[<-|[<-|[]]]];
    rewrite ?String.eqb_refl, ?orb_true_r; reflexivity.
Qed.

(** X1.  After [init_db] the three default user names are in the users
    table, and running [init_db] again adds no row and changes none:
    the default users are inserted once, however often the script
    starts.  The complaints are never touched.  (The statement is about
    the rows of the two tables, not about the counter SQLite keeps for
    AUTOINCREMENT.) *)
Theorem init_db_seeds_once :
  forall d : db,
    (forall name, In name seeded_names -> has_user name (init_db d) = true)
    /\ users (init_db (init_db d)) = users (init_db d)
    /\ complaints (init_db d) = complaints d.
Proof.
  intros d. pose proof (init_db_has_seeded d) as H.
  split; [exact H|]. split; [|apply init_db_complaints].
  generalize dependent (init_db d). intros d1 H.
  rewrite init_db_unfold.
  rewrite (@insert_user_noop "principal" "principal123" "principal" d1)
    by (apply H; cbn; tauto).
  rewrite (@insert_user_noop "org" "org123" "org" d1)
    by (apply H; cbn; tauto).
  rewrite (@insert_user_noop "chairman" "chairman123" "chairman" d1)
    by (apply H; cbn; tauto).
  reflexivity.
Qed.

Lemma find_app_some {A : Type} (f : A -> bool) (l l' : list A) (x : A) :
  find f l = Some x -> find f (l ++ l')%list = Some x.
Proof.
  induction l as [|a l IH]; simpl; [discriminate|].
  destruct (f a); [auto | exact IH].
Qed.

Lemma insert_user_grow (n p r : string) (d : db) :
  exists l, users (snd (insert_user n p r d)) = (users d ++ l)%list.
Proof.
  rewrite insert_user_users. destruct (has_user n d).
  - exists []. symmetry. apply app_nil_r.
  - eexists. reflexivity.
Qed.

Lemma login_sign_up_users (name secret role : string) (d : db) :
  users (snd (login_sign_up name secret role d))
  = if truthy name && truthy secret
    then users (snd (insert_user (strip name) (sha256_hexdigest secret)
                       role d))
    else users d.
Proof.
  unfold login_sign_up.
  destruct (truthy name && truthy secret); [|reflexivity].
  destruct (insert_user (strip name) (sha256_hexdigest secret) role d)
    as [[u|e] d']; reflexivity.
Qed.

Lemma principal_page_submit_users (bus : Z) (cd : date) (ct : time)
    (pt details : string) (paths : list string) (utcnow : datetime) (d : db) :
  users (snd (principal_page_submit bus cd ct pt details paths utcnow d))
  = users d.
Proof.
  unfold principal_page_submit.
  destruct (negb (truthy (strip details))); reflexivity.
Qed.

(** No action removes or rewrites a user: the table only grows at its
    end. *)
Lemma users_grow (a : action) (d : db) :
  exists l, users (perform a d) = (users d ++ l)%list.
Proof.
  destruct a as [| bus cd ct pt details paths utcnow
                | cid status response utcnow
                | cid reaction utcnow
                | name secret role];
    cbn [perform].
  - rewrite init_db_unfold.
    destruct (insert_user_grow "principal" "principal123" "principal" d)
      as [l1 E1].
    destruct (insert_user_grow "org" "org123" "org"
                (snd (insert_user "principal" "principal123" "principal" d)))
      as [l2 E2].
    destruct (insert_user_grow "chairman" "chairman123" "chairman"
                (snd (insert_user "org" "org123" "org"
                        (snd (insert_user "principal" "principal123"
                                "principal" d)))))
      as [l3 E3].
    exists (l1 ++ l2 ++ l3)%list. rewrite E3, E2, E1, !app_assoc. reflexivity.
  - rewrite principal_page_submit_users. exists []. symmetry. apply app_nil_r.
  - exists []. symmetry. apply app_nil_r.
  - exists []. symmetry. apply app_nil_r.
  - rewrite login_sign_up_users. destruct (truthy name && truthy secret).
    + apply insert_user_grow.
    + exists []. symmetry. apply app_nil_r.
Qed.

(** X2.  A user name and secret that sign in keep signing in, to the
    same session, whatever the application does next: no action
    removes a user, changes a password or a role, or puts another user
    of that name before it. *)
Theorem sign_in_stays_valid :
  forall (a : action) (d : db) (username password : string)
         (s : session_user),
    login_sign_in username password d = inl s ->
    login_sign_in username password (perform a d) = inl s.
Proof.
  intros a d username password s. unfold login_sign_in, fetch_user.
  destruct (truthy username && truthy password); [|discriminate].
  destruct (users_grow a d) as [l ->].
  destruct (find _ (users d)) as [u|] eqn:E; [|discriminate].
  rewrite (find_app_some _ _ l E). auto.
Qed.

Lemma sign_in_stays_valid_witness :
  login_sign_in "ann" "pw123"
    (perform (SaveUpdate 1 "In Progress" None (at_clock 2 7 0)) db_started)
  = inl (mksession 4 "ann" "org").
Proof.
  apply (@sign_in_stays_valid
           (SaveUpdate 1 "In Progress" None (at_clock 2 7 0)) db_started
           "ann" "pw123" (mksession 4 "ann" "org")).
  vm_compute. reflexivity.
Defined.

Lemma string_length_app (a b : string) :
  String.length (a ++ b) = (String.length a + String.length b)%nat.
Proof.
  induction a as [|c a IH]; simpl; [reflexivity | rewrite IH; reflexivity].
Qed.

Lemma hex_length (k : nat) (n : Z) : String.length (Sha256.hex k n) = k.
Proof.
  revert n. induction k as [|k IH]; intros n; cbn [Sha256.hex];
    [reflexivity|].
  rewrite string_length_app, IH. simpl. lia.
Qed.

(** A digest is written on 64 characters, whatever was hashed. *)
Lemma sha256_hexdigest_length (s : string) :
  String.length (sha256_hexdigest s) = 64%nat.
Proof.
  unfold sha256_hexdigest, Sha256.hexdigest, Sha256.digest. cbv zeta.
  generalize (Sha256.blocks
                (List.length
                   (Sha256.words
                      (List.length (Sha256.pad (Sha256.bytes_of_string s)))
                      (Sha256.pad (Sha256.bytes_of_string s))))
                Sha256.init
                (Sha256.words
                   (List.length (Sha256.pad (Sha256.bytes_of_string s)))
                   (Sha256.pad (Sha256.bytes_of_string s)))).
  intros h. cbn [map String.concat].
  rewrite !string_length_app, !hex_length. reflexivity.
Qed.

Lemma eqb_of_other_length (a b : string) :
  String.length a <> String.length b -> String.eqb a b = false.
Proof.
  intros H. apply String.eqb_neq. intros ->. apply H. reflexivity.
Qed.

Lemma insert_user_In (u : Users.row) (n p r : string) (d : db) :
  In u (users (snd (insert_user n p r d))) ->
  In u (users d) \/ (Users.username u = n /\ Users.password u = p).
Proof.
  rewrite insert_user_users. destruct (has_user n d); [auto|].
  intros H. apply in_app_or in H. destruct H as [H|[<-|[]]]; auto.
Qed.

Lemma init_db_In (u : Users.row) (d : db) :
  In u (users (init_db d)) ->
  In u (users d)
  \/ In (Users.username u, Users.password u)
        [("principal", "principal123"); ("org", "org123");
         ("chairman", "chairman123")].
Proof.
  rewrite init_db_unfold. intros H.
  apply insert_user_In in H. destruct H as [H|[-> ->]]; [|cbn; tauto].
  apply insert_user_In in H. destruct H as [H|[-> ->]]; [|cbn; tauto].
  apply insert_user_In in H. destruct H as [H|[-> ->]]; [|cbn; tauto].
  left. exact H.
Qed.

(** X3.  The default users that [init_db] seeds cannot sign in, with
    any password: their passwords are stored as written, and
    [fetch_user] compares the stored text with a digest of 64
    characters. *)
Theorem seeded_users_cannot_sign_in :
  forall (d : db) (name password : string),
    In name seeded_names ->
    has_user name d = false ->
    exists n, login_sign_in name password (init_db d) = inr n.
Proof.
  intros d name password Hname Hfresh.
  unfold login_sign_in, fetch_user.
  destruct (truthy name && truthy password); [|eexists; reflexivity].
  assert (Hstrip : strip name = name)
    by (destruct Hname as [<-|[<-|[<-|[]]]]; reflexivity).
  rewrite Hstrip.
  rewrite find_all_false; [eexists; reflexivity|].
  intros u Hu. apply andb_false_iff.
  apply init_db_In in Hu. destruct Hu as [Hu|Hu].
  - left. destruct (String.eqb (Users.username u) name) eqn:E; [|reflexivity].
    assert (has_user name d = true)
      by (apply existsb_exists; exists u; split; assumption).
    congruence.
  - right. apply eqb_of_other_length. rewrite sha256_hexdigest_length.
    destruct Hu as [E|[E|[E|[]]]]; injection E as _ <-; discriminate.
Qed.

Lemma seeded_users_cannot_sign_in_witness :
  exists n, login_sign_in "principal" "principal123" (init_db empty_db) = inr n.
Proof.
  apply (@seeded_users_cannot_sign_in empty_db "principal" "principal123").
  - cbn. tauto.
  - reflexivity.
Defined.



Lemma has_user_false_notin (n : string) (d : db) :
  has_user n d = false -> ~ In n (map Users.username (users d)).
Proof.
  intros H Hin. apply in_map_iff in Hin. destruct Hin as [u [Hu Hin]].
  assert (has_user n d = true).
  { apply existsb_exists. exists u. split; [exact Hin|].
    apply String.eqb_eq. exact Hu. }
  congruence.
Qed.

Lemma insert_user_nodup (n p r : string) (d : db) :
  NoDup (map Users.username (users d)) ->
  NoDup (map Users.username (users (snd (insert_user n p r d)))).
Proof.
  intros H. rewrite insert_user_users.
  destruct (has_user n d) eqn:E; [exact H|].
  rewrite map_app. cbn [map Users.username].
  apply (Permutation_NoDup (Permutation_cons_append _ n)).
  constructor; [apply has_user_false_notin; exact E | exact H].
Qed.

Lemma perform_usernames (a : action) (d : db) :
  NoDup (map Users.username (users d)) ->
  NoDup (map Users.username (users (perform a d))).
Proof.
  intros H.
  destruct a as [| bus cd ct pt details paths utcnow
                | cid status response utcnow
                | cid reaction utcnow
                | name secret role];
    cbn [perform].
  - rewrite init_db_unfold. do 3 apply insert_user_nodup. exact H.
  - rewrite principal_page_submit_users. exact H.
  - exact H.
  - exact H.
  - rewrite login_sign_up_users. destruct (truthy name && truthy secret).
    + apply insert_user_nodup. exact H.
    + exact H.
Qed.

Lemma db_started_reachable : reachable db_started.
Proof.
  unfold db_started.
  repeat (apply reachable_step; [|cbn; repeat split; reflexivity]).
  apply reachable_empty.
Qed.

(** X5.  In every store the application can reach, no two users have
    the same user name. *)
Theorem reachable_usernames_unique :
  forall d : db, reachable d -> NoDup (map Users.username (users d)).
Proof.
  induction 1 as [|a d _ IH _].
  - constructor.
  - apply perform_usernames. exact IH.
Qed.

Lemma reachable_usernames_unique_witness :
  NoDup (map Users.username (users db_started)).
Proof.
  apply (@reachable_usernames_unique db_started).
  exact db_started_reachable.
Defined.

(** ** The complaints table *)

Lemma principal_page_submit_complaints (bus : Z) (cd : date) (ct : time)
    (pt details : string) (paths : list string) (utcnow : datetime) (d : db) :
  complaints (snd (principal_page_submit bus cd ct pt details paths utcnow d))
  = if truthy (strip details)
    then (complaints d
          ++ [Complaints.mk
                (next_rowid (complaints_seq d)
                   (map Complaints.id (complaints d)))
                bus (datetime_isoformat (datetime_combine cd ct)) pt details
                paths "Open" None (datetime_isoformat utcnow)
                (datetime_isoformat utcnow) None None])%list
    else complaints d.
Proof.
  unfold principal_page_submit.
  destruct (truthy (strip details)); reflexivity.
Qed.




(** X7.  No action deletes a complaint or edits what was reported: a
    complaint found under an id is found under it after any action, with
    the same bus number, incident time, problem type, description,
    photos and creation time. *)
Theorem report_is_kept :
  forall (a : action) (d : db) (k : Z) (r : Complaints.row),
    complaint_by_id d k = Some r ->
    exists r',
      complaint_by_id (perform a d) k = Some r'
      /\ Complaints.id r' = Complaints.id r
      /\ Complaints.bus_number r' = Complaints.bus_number r
      /\ Complaints.complaint_datetime r' = Complaints.complaint_datetime r
      /\ Complaints.problem_type r' = Complaints.problem_type r
      /\ Complaints.details r' = Complaints.details r
      /\ Complaints.photo_paths r' = Complaints.photo_paths r
      /\ Complaints.created_at r' = Complaints.created_at r.
Proof.
  intros a d k r Hr.
  destruct a as [| bus cd ct pt details paths utcnow
                | cid status response utcnow
                | cid reaction utcnow
                | name secret role];
    cbn [perform].
  - exists r. unfold complaint_by_id in *. rewrite init_db_complaints.
    repeat split; auto.
  - exists r. unfold complaint_by_id in *.
    rewrite principal_page_submit_complaints.
    destruct (truthy (strip details)); [rewrite (find_app_some _ _ _ Hr)|];
      repeat split; auto.
  - destruct (Z.eq_dec k cid) as [->|Hk].
    + eexists. split; [apply status_update_record; exact Hr|].
      repeat split; reflexivity.
    + exists r. rewrite status_update_other_record by exact Hk.
      repeat split; auto.
  - unfold set_chairman_reaction; cbn [snd].
    destruct (Z.eq_dec k cid) as [->|Hk].
    + eexists. split.
      * match goal with
        | |- complaint_by_id (update_where_id _ ?set _) _ = _ =>
            exact (updated_complaint cid set (fun _ => eq_refl) d Hr)
        end.
      * repeat split; reflexivity.
    + exists r. split; [|repeat split; auto].
      rewrite other_complaint; [exact Hr | intros; reflexivity | exact Hk].
  - exists r. unfold complaint_by_id in *. rewrite login_sign_up_complaints.
    repeat split; auto.
Qed.

Lemma report_is_kept_witness :
  exists r',
    complaint_by_id
      (perform (SaveUpdate 1 "In Progress" None (at_clock 2 7 0)) db_resolved) 1
    = Some r'
    /\ Complaints.id r' = 1
    /\ Complaints.bus_number r' = 12
    /\ Complaints.complaint_datetime r' = "2024-03-01T08:00:00"
    /\ Complaints.problem_type r' = "Delay"
    /\ Complaints.details r' = "15 min late"
    /\ Complaints.photo_paths r' = []
    /\ Complaints.created_at r' = "2024-03-01T08:00:00".
Proof.
  apply (@report_is_kept (SaveUpdate 1 "In Progress" None (at_clock 2 7 0))
           db_resolved 1 row_resolved).
  reflexivity.
Defined.

(** ** What holds of every stored complaint *)

Section RowInvariant.

Variable P : Complaints.row -> Prop.

Hypothesis P_submit :
  forall (k bus : Z) (incident pt details : string) (paths : list string)
         (now : string),
    strip details <> "" ->
    P (Complaints.mk k bus incident pt details paths "Open" None now now
         None None).

Hypothesis P_status :
  forall (r : Complaints.row) (status : string) (response : option string)
         (now : string),
    P r ->
    P (Complaints.mk
         (Complaints.id r) (Complaints.bus_number r)
         (Complaints.complaint_datetime r) (Complaints.problem_type r)
         (Complaints.details r) (Complaints.photo_paths r)
         status response (Complaints.created_at r) now
         (if String.eqb status "Resolved" then Some now
          else Complaints.resolved_at r)
         (Complaints.chairman_reaction r)).

Hypothesis P_reaction :
  forall (r : Complaints.row) (reaction now : string),
    P r ->
    P (Complaints.mk
         (Complaints.id r) (Complaints.bus_number r)
         (Complaints.complaint_datetime r) (Complaints.problem_type r)
         (Complaints.details r) (Complaints.photo_paths r)
         (Complaints.status r) (Complaints.org_response r)
         (Complaints.created_at r) now
         (Complaints.resolved_at r) (Some reaction)).

Lemma perform_rows (a : action) (d : db) :
  Forall P (complaints d) -> Forall P (complaints (perform a d)).
Proof.
  intros H.
  destruct a as [| bus cd ct pt details paths utcnow
                | cid status response utcnow
                | cid reaction utcnow
                | name secret role];
    cbn [perform].
  - rewrite init_db_complaints. exact H.
  - rewrite principal_page_submit_complaints.
    destruct (truthy (strip details)) eqn:E; [|exact H].
    apply Forall_app. split; [exact H|]. constructor; [|constructor].
    apply P_submit. apply truthy_true. exact E.
  - unfold update_complaint_status, update_where_id; cbn [snd complaints].
    apply Forall_map. eapply Forall_impl; [|exact H].
    intros r Hr. destruct (Complaints.id r =? cid); [|exact Hr].
    pose proof (P_status status response (datetime_isoformat utcnow) Hr)
      as Hs.
    destruct (String.eqb status "Resolved"); exact Hs.
  - unfold set_chairman_reaction, update_where_id; cbn [snd complaints].
    apply Forall_map. eapply Forall_impl; [|exact H].
    intros r Hr. destruct (Complaints.id r =? cid); [|exact Hr].
    apply P_reaction. exact Hr.
  - rewrite login_sign_up_complaints. exact H.
Qed.

(** What the form writes and the two updates keep holds of every
    complaint of every store the application can reach. *)
Lemma reachable_rows (d : db) : reachable d -> Forall P (complaints d).
Proof.
  induction 1 as [|a d _ IH _].
  - constructor.
  - apply perform_rows. exact IH.
Qed.

End RowInvariant.



(** X9.  In every store the application can reach, a complaint whose
    status is Resolved has a resolution time. *)
Theorem resolved_complaint_has_resolution_time :
  forall (d : db) (r : Complaints.row),
    reachable d -> In r (complaints d) ->
    Complaints.status r = "Resolved" ->
    exists t, Complaints.resolved_at r = Some t.
Proof.
  intros d r Hd Hr.
  refine (proj1 (Forall_forall _ _)
            (@reachable_rows
               (fun r => Complaints.status r = "Resolved" ->
                         exists t, Complaints.resolved_at r = Some t)
               _ _ _ d Hd)
            r Hr).
  - intros; discriminate.
  - intros r0 status response now _ Hs.
    cbn [Complaints.status Complaints.resolved_at] in *.
    rewrite Hs. eexists. reflexivity.
  - intros r0 reaction now H Hs. apply H. exact Hs.
Qed.

Lemma resolved_complaint_has_resolution_time_witness :
  exists t, Complaints.resolved_at row_resolved = Some t.
Proof.
  apply (@resolved_complaint_has_resolution_time db_started row_resolved).
  - exact db_started_reachable.
  - left. reflexivity.
  - reflexivity.
Defined.

Lemma find_in_increasing (rows : list Complaints.row) (r : Complaints.row) :
  StronglySorted Z.lt (map Complaints.id rows) ->
  In r rows ->
  find (fun x => Complaints.id x =? Complaints.id r) rows = Some r.
Proof.
  induction rows as [|x rows IH]; cbn [map find]; intros Hs Hr; [destruct Hr|].
  apply StronglySorted_inv in Hs. destruct Hs as [Hs Hall].
  destruct Hr as [->|Hr].
  - rewrite Z.eqb_refl. reflexivity.
  - assert (Hlt : Complaints.id x < Complaints.id r).
    { apply (proj1 (Forall_forall _ _) Hall). apply in_map. exact Hr. }
    replace (Complaints.id x =? Complaints.id r) with false
      by (symmetry; apply Z.eqb_neq; lia).
    apply IH; assumption.
Qed.

(** X10.  In every store the application can reach, an id names one
    complaint: every complaint of the table is the one that is found
    under its id. *)
Theorem stored_complaint_is_found_by_id :
  forall (d : db) (r : Complaints.row),
    reachable d -> In r (complaints d) ->
    complaint_by_id d (Complaints.id r) = Some r.
Proof.
  intros d r Hd Hr. unfold complaint_by_id.
  apply find_in_increasing; [apply reachable_ids; exact Hd | exact Hr].
Qed.

Lemma stored_complaint_is_found_by_id_witness :
  complaint_by_id db_started (Complaints.id row_resolved) = Some row_resolved.
Proof.
  apply (@stored_complaint_is_found_by_id db_started row_resolved).
  - exact db_started_reachable.
  - left. reflexivity.
Defined.

(** ** Updates of one complaint *)



(** X12.  A status update rewrites the status, the response, the update
    time and, for Resolved, the resolution time of the complaint, and
    nothing else: what was reported, the creation time and the
    chairman's reaction stay, as do the other complaints and the
    users. *)
Theorem status_update_frame :
  forall (d : db) (complaint_id : Z) (status : string)
         (response : option string) (utcnow : datetime) (r : Complaints.row),
    complaint_by_id d complaint_id = Some r ->
    let d' :=
      snd (update_complaint_status complaint_id status response utcnow d) in
    (exists resolved,
       complaint_by_id d' complaint_id
       = Some (Complaints.mk
                 (Complaints.id r) (Complaints.bus_number r)
                 (Complaints.complaint_datetime r) (Complaints.problem_type r)
                 (Complaints.details r) (Complaints.photo_paths r)
                 status response (Complaints.created_at r)
                 (datetime_isoformat utcnow) resolved
                 (Complaints.chairman_reaction r)))
    /\ (forall k, k <> complaint_id ->
                  complaint_by_id d' k = complaint_by_id d k)
    /\ users d' = users d
    /\ List.length (complaints d') = List.length (complaints d).
Proof.
  intros d complaint_id status response utcnow r Hr d'. subst d'.
  split; [|split; [|split]].
  - eexists. apply status_update_record. exact Hr.
  - intros k Hk. apply status_update_other_record. exact Hk.
  - reflexivity.
  - unfold update_complaint_status, update_where_id; cbn [snd complaints].
    apply length_map.
Qed.

Lemma status_update_frame_witness :
  let d' :=
    snd (update_complaint_status 1 "In Progress" None (at_clock 2 7 0)
           db_two_same_time) in
  (exists resolved,
     complaint_by_id d' 1
     = Some (Complaints.mk 1 12 "2024-03-01T08:00:00" "Delay" "15 min late"
               [] "In Progress" None "2024-03-01T08:00:00"
               "2024-03-02T07:00:00" resolved None))
  /\ (forall k, k <> 1 ->
                complaint_by_id d' k = complaint_by_id db_two_same_time k)
  /\ users d' = users db_two_same_time
  /\ List.length (complaints d') = List.length (complaints db_two_same_time).
Proof.
  apply (@status_update_frame db_two_same_time 1 "In Progress" None
           (at_clock 2 7 0) row_resolved).
  reflexivity.
Defined.

(** X13.  After a status update of a complaint, the listing filtered by
    the new status holds the complaint with that status and the
    response given. *)
Theorem updated_complaint_is_listed_under_its_status :
  forall (d : db) (complaint_id : Z) (status : string)
         (response : option string) (utcnow : datetime) (r : Complaints.row),
    complaint_by_id d complaint_id = Some r ->
    status <> "" ->
    status <> "All" ->
    exists r',
      In r' (fetch_complaints None None (Some status) None None
               (snd (update_complaint_status complaint_id status response
                       utcnow d)))
      /\ Complaints.id r' = Complaints.id r
      /\ Complaints.status r' = status
      /\ Complaints.org_response r' = response.
Proof.
  intros d complaint_id status response utcnow r Hr Hs Hall.
  pose proof (@status_update_record d complaint_id status response utcnow r
                Hr) as H.
  match type of H with _ = Some ?x => exists x end.
  split; [|repeat split; reflexivity].
  apply fetch_complaints_In. split.
  - unfold complaint_by_id in H. apply find_some in H. exact (proj1 H).
  - unfold selected, where_clauses.
    apply truthy_true in Hs. apply String.eqb_neq in Hall.
    rewrite Hs, Hall. cbn [app negb andb forallb Complaints.status].
    rewrite String.eqb_refl. reflexivity.
Qed.

Lemma updated_complaint_is_listed_under_its_status_witness :
  exists r',
    In r' (fetch_complaints None None (Some "In Progress") None None
             (snd (update_complaint_status 1 "In Progress" (Some "on it")
                     (at_clock 2 7 0) db_resolved)))
    /\ Complaints.id r' = Complaints.id row_resolved
    /\ Complaints.status r' = "In Progress"
    /\ Complaints.org_response r' = Some "on it".
Proof.
  apply (@updated_complaint_is_listed_under_its_status db_resolved 1
           "In Progress" (Some "on it") (at_clock 2 7 0) row_resolved).
  - reflexivity.
  - discriminate.
  - discriminate.
Defined.

(** ** The response form of the operations page *)







(** ** The filters of the listing *)


Lemma compare_date_isoformat (a b : date) :
  valid_date a = true -> valid_date b = true ->
  String.compare (date_isoformat a) (date_isoformat b)
  = lex_compare [year a; month a; day a] [year b; month b; day b].
Proof.
  intros Ha Hb.
  destruct (valid_date_bounds _ Ha) as [Hy1 [Hm1 Hd1]].
  destruct (valid_date_bounds _ Hb) as [Hy2 [Hm2 Hd2]].
  unfold date_isoformat. cbn [lex_compare].
  rewrite (@compare_zero_padded 4) by assumption.
  cbn [append]. rewrite compare_same_head.
  rewrite (@compare_zero_padded 2) by assumption.
  cbn [append]. rewrite compare_same_head.
  rewrite <- (string_app_nil_r (zero_padded 2 (day a))).
  rewrite <- (string_app_nil_r (zero_padded 2 (day b))).
  rewrite (@compare_zero_padded 2) by assumption.
  destruct (day a ?= day b); reflexivity.
Qed.

(** The text of two dates sorts as the days they denote. *)
Lemma date_isoformat_le (a b : date) :
  valid_date a = true -> valid_date b = true ->
  (String.leb (date_isoformat a) (date_isoformat b) = true
   <-> ymd2ord a <= ymd2ord b).
Proof.
  intros Ha Hb. fold (text_le (date_isoformat a) (date_isoformat b)).
  rewrite text_le_iff, (compare_date_isoformat _ _ Ha Hb).
  rewrite <- (ymd2ord_compare _ _ Ha Hb).
  apply iff_refl.
Qed.

Lemma selected_with_dates (bus : option Z) (problem status : option string)
    (sd ed : date) (r : Complaints.row) :
  selected (where_clauses bus problem status (Some sd) (Some ed)) r
  = selected (where_clauses bus problem status None None) r
    && date_ge (date_isoformat sd) r && date_le (date_isoformat ed) r.
Proof.
  unfold selected, where_clauses. rewrite !forallb_app. cbn [forallb].
  rewrite !andb_true_r, !andb_assoc. reflexivity.
Qed.

(** X16.  In a store the application can reach, the two date filters
    keep, among the complaints the other filters select, exactly those
    whose incident day lies between the two days given, both
    included.  The end day is taken before the year 9999, the last
    year, whose final instant SQLite's [date] does not cover. *)
Theorem date_filters_are_inclusive_bounds :
  forall (bus : option Z) (problem status : option string)
         (start_date end_date : date) (d : db) (r : Complaints.row),
    reachable d ->
    valid_date start_date = true ->
    valid_date end_date = true ->
    year end_date < 9999 ->
    (In r (fetch_complaints bus problem status (Some start_date)
             (Some end_date) d)
     <-> In r (fetch_complaints bus problem status None None d)
         /\ ymd2ord start_date <= incident_day r <= ymd2ord end_date).
Proof.
  intros bus problem status sd ed d r Hd Hsd Hed _.
  rewrite !fetch_complaints_In, selected_with_dates, !andb_true_iff.
  assert (Hrow : In r (complaints d) ->
                 (date_ge (date_isoformat sd) r = true
                  <-> ymd2ord sd <= incident_day r)
                 /\ (date_le (date_isoformat ed) r = true
                     <-> incident_day r <= ymd2ord ed)).
  { intros Hin.
    destruct (proj1 (Forall_forall _ _) (reachable_incident Hd) r Hin)
      as [dt [Hv E]].
    unfold date_ge, date_le, incident_day, sql_date. rewrite E.
    rewrite (fromisoformat_isoformat dt Hv).
    unfold valid_datetime in Hv. apply andb_true_iff in Hv.
    destruct Hv as [Hv _].
    split; apply date_isoformat_le; assumption. }
  split.
  - intros [Hin [[Hsel Hge] Hle]]. destruct (Hrow Hin) as [H1 H2].
    split; [split; assumption|]. split; [apply H1 | apply H2]; assumption.
  - intros [[Hin Hsel] [Hge Hle]]. destruct (Hrow Hin) as [H1 H2].
    split; [exact Hin|]. split; [split; [exact Hsel|]|];
      [apply H1 | apply H2]; assumption.
Qed.

Lemma date_filters_are_inclusive_bounds_witness :
  In row_resolved
     (fetch_complaints None None None (Some (mkdate 2024 3 1))
        (Some (mkdate 2024 3 1)) db_started)
  <-> In row_resolved (fetch_complaints None None None None None db_started)
      /\ ymd2ord (mkdate 2024 3 1) <= incident_day row_resolved
         <= ymd2ord (mkdate 2024 3 1).
Proof.
  apply (@date_filters_are_inclusive_bounds None None None (mkdate 2024 3 1)
           (mkdate 2024 3 1) db_started row_resolved).
  - exact db_started_reachable.
  - reflexivity.
  - reflexivity.
  - reflexivity.
Defined.







Lemma to_lower_facts (c : ascii) :
  to_lower (to_lower c) = to_lower c
  /\ Ascii.eqb (to_lower c) "%" = Ascii.eqb c "%"
  /\ Ascii.eqb (to_lower c) "_" = Ascii.eqb c "_".
Proof.
  destruct c as [b0 b1 b2 b3 b4 b5 b6 b7].
  destruct b0, b1, b2, b3, b4, b5, b6, b7; repeat split; reflexivity.
Qed.

Lemma like_lower (p : string) : forall x, like (lower p) x = like p x.
Proof.
  induction p as [|c p IH]; intros x; [reflexivity|].
  cbn [lower]. destruct (to_lower_facts c) as [Hl [H1 H2]].
  destruct (Ascii.eqb c "%") eqn:E1.
  - apply Ascii.eqb_eq in E1. subst c.
    change (to_lower "%") with "%"%char.
    induction x as [|a x IHx].
    + rewrite !like_percent_unfold, IH. reflexivity.
    + rewrite (like_percent_unfold (lower p)), (like_percent_unfold p).
      rewrite IH, IHx. reflexivity.
  - destruct (Ascii.eqb c "_") eqn:E2.
    + cbn [like]. rewrite H1, H2, E1, E2.
      destruct x; [reflexivity | apply IH].
    + rewrite !like_char by congruence.
      destruct x as [|a x]; [reflexivity|]. rewrite Hl, IH. reflexivity.
Qed.

Lemma lower_app (a b : string) : lower (a ++ b) = lower a ++ lower b.
Proof.
  induction a as [|c a IH]; simpl; [reflexivity | rewrite IH; reflexivity].
Qed.

Lemma truthy_lower (s : string) : truthy (lower s) = truthy s.
Proof. destruct s; reflexivity. Qed.

(** X18.  The case of the letters of the filter text does not matter:
    the listing for a text and the listing for the same text in
    lower-case letters are the same. *)
Theorem problem_filter_ignores_case_of_text :
  forall (bus : option Z) (problem : string) (status : option string)
         (start_date end_date : option date) (d : db),
    fetch_complaints bus (Some (lower problem)) status start_date end_date d
    = fetch_complaints bus (Some problem) status start_date end_date d.
Proof.
  intros bus problem status start_date end_date d.
  unfold fetch_complaints. cbv zeta. f_equal. apply filter_ext. intros r.
  unfold selected, where_clauses. rewrite truthy_lower, !forallb_app.
  f_equal. f_equal.
  destruct (truthy problem); [|reflexivity]. cbn [forallb]. f_equal.
  change ("%" ++ lower problem ++ "%")
    with (lower "%" ++ lower problem ++ lower "%").
  rewrite <- !lower_app. apply like_lower.
Qed.

(** ** The metrics of the dashboard *)

(** The loop counts the rows resolved on the day asked for. *)
Lemma metrics_loop_count (today_str : string) (rows : list Complaints.row) :
  Forall timestamps_parse rows ->
  forall (n : Z) (durations : list Q),
  exists more : list Q,
    fold_left (metrics_step today_str) rows (Returned (n, durations))
    = Returned
        (n + Z.of_nat (List.length (filter (resolved_on today_str) rows)),
         (durations ++ more)%list).
Proof.
  induction 1 as [|r rows Hr _ IH]; intros n durations.
  - exists []. rewrite app_nil_r. cbn. rewrite Z.add_0_r. reflexivity.
  - cbn [fold_left filter]. unfold metrics_step at 2, resolved_on at 1.
    destruct (Complaints.resolved_at r) as [s|] eqn:Es.
    + destruct (Hr s Es) as [[resolved Hres] [created Hcre]].
      assert (Ht : truthy s = true).
      { destruct s; [rewrite fromisoformat_empty in Hres; discriminate|].
        reflexivity. }
      rewrite Ht, Hres, Hcre. cbv zeta.
      set (h := (total_seconds resolved created / 3600)%Q).
      destruct (String.eqb _ today_str).
      * destruct (IH (n + 1) (durations ++ [h])%list) as [more E].
        exists (h :: more). rewrite E, <- app_assoc. cbn [List.length app].
        f_equal. f_equal. lia.
      * destruct (IH n (durations ++ [h])%list) as [more E].
        exists (h :: more). rewrite E, <- app_assoc. reflexivity.
    + apply IH.
Qed.

(** X19.  When the timestamps of the resolved rows parse, the metrics
    are the number of rows, the number of rows whose status is Open and
    the number of rows whose resolution time falls on the day asked
    for, whatever their status is now. *)
Theorem resolution_metrics_counts :
  forall (rows : list Complaints.row) (today : date),
    Forall timestamps_parse rows ->
    exists avg_hours : option Q,
      compute_resolution_metrics rows today
      = Returned
          (Z.of_nat (List.length rows),
           Z.of_nat
             (List.length
                (filter (fun r => String.eqb (Complaints.status r) "Open")
                        rows)),
           Z.of_nat
             (List.length (filter (resolved_on (date_isoformat today)) rows)),
           avg_hours).
Proof.
  intros rows today Hrows. unfold compute_resolution_metrics.
  destruct (metrics_loop_count (date_isoformat today) Hrows 0 [])
    as [more E].
  rewrite E. cbn [app]. eexists. reflexivity.
Qed.

Lemma resolution_metrics_counts_witness :
  exists avg_hours : option Q,
    compute_resolution_metrics [row_resolved] (mkdate 2024 3 1)
    = Returned
        (Z.of_nat (List.length [row_resolved]),
         Z.of_nat
           (List.length
              (filter (fun r => String.eqb (Complaints.status r) "Open")
                      [row_resolved])),
         Z.of_nat
           (List.length
              (filter (resolved_on (date_isoformat (mkdate 2024 3 1)))
                      [row_resolved])),
         avg_hours).
Proof.
  apply (@resolution_metrics_counts [row_resolved] (mkdate 2024 3 1)).
  constructor; [|constructor].
  intros s Hs. injection Hs as <-.
  split; eexists; reflexivity.
Defined.

Lemma fromisoformat_outcome (s : string) :
  (exists dt, fromisoformat s = Returned dt)
  \/ fromisoformat s = Raised ValueError.
Proof.
  unfold fromisoformat.
  destruct (parse_date s) as [[d rest]|]; [|right; reflexivity].
  destruct rest as [|c rest].
  - destruct (valid_date d); [left; eexists|right]; reflexivity.
  - destruct (parse_time rest) as [t|]; [|right; reflexivity].
    destruct (valid_date d && valid_time t); [left; eexists|right];
      reflexivity.
Qed.

Lemma metrics_loop_raised (today_str : string) (rows : list Complaints.row)
    (e : exn) :
  fold_left (metrics_step today_str) rows (Raised e) = Raised e.
Proof. induction rows as [|r rows IH]; [reflexivity | exact IH]. Qed.

Lemma lacks_year_raises (s : string) :
  lacks_year s = true -> fromisoformat s = Raised ValueError.
Proof.
  unfold lacks_year, fromisoformat, parse_date. intros H.
  destruct (digits 4 0 s) as [[y rest]|]; [discriminate | reflexivity].
Qed.

(** A row whose resolution time or creation time cannot be read stops
    the loop. *)
Lemma metrics_step_fails (today_str : string) (n : Z) (durations : list Q)
    (r : Complaints.row) (s : string) :
  Complaints.resolved_at r = Some s ->
  s <> "" ->
  lacks_year s = true \/ lacks_year (Complaints.created_at r) = true ->
  metrics_step today_str (Returned (n, durations)) r = Raised ValueError.
Proof.
  intros Es Hs Hbad.
  unfold metrics_step. apply truthy_true in Hs. rewrite Es, Hs.
  destruct (fromisoformat_outcome s) as [[dt E]|E]; rewrite E;
    [|reflexivity].
  destruct Hbad as [Hbad|Hbad].
  - rewrite (lacks_year_raises _ Hbad) in E. discriminate.
  - rewrite (lacks_year_raises _ Hbad). reflexivity.
Qed.

(** X20.  When the rows hold a row with a resolution time, not empty,
    that does not begin with the four digits of a year, or with a
    creation time that does not, the metrics are not computed:
    ValueError is raised, although the timestamps of the rows before it
    were read, and whatever rows come after it. *)
Theorem resolution_metrics_raise_on_bad_timestamp :
  forall (before after : list Complaints.row) (today : date)
         (r : Complaints.row) (s : string),
    Forall timestamps_parse before ->
    Complaints.resolved_at r = Some s ->
    s <> "" ->
    lacks_year s = true \/ lacks_year (Complaints.created_at r) = true ->
    compute_resolution_metrics (before ++ r :: after)%list today
    = Raised ValueError.
Proof.
  intros before after today r s Hbefore Es Hs Hbad.
  unfold compute_resolution_metrics. rewrite fold_left_app.
  destruct (metrics_loop_count (date_isoformat today) Hbefore 0 [])
    as [more E].
  rewrite E. cbn [fold_left].
  rewrite (@metrics_step_fails (date_isoformat today) _ _ r s Es Hs Hbad).
  rewrite metrics_loop_raised. reflexivity.
Qed.

Lemma resolution_metrics_raise_on_bad_timestamp_witness :
  compute_resolution_metrics
    ([row_resolved]
     ++ Complaints.mk 2 7 "2024-03-01T08:00:00" "Fight" "pushing at the door"
          [] "Resolved" None "2024-03-01T10:00:00" "2024-03-01T11:00:00"
          (Some "11 o'clock") None
     :: [row_resolved])%list
    (mkdate 2024 3 1)
  = Raised ValueError.
Proof.
  apply (@resolution_metrics_raise_on_bad_timestamp [row_resolved]
           [row_resolved] (mkdate 2024 3 1)
           (Complaints.mk 2 7 "2024-03-01T08:00:00" "Fight"
              "pushing at the door" [] "Resolved" None "2024-03-01T10:00:00"
              "2024-03-01T11:00:00" (Some "11 o'clock") None)
           "11 o'clock").
  - constructor; [|constructor].
    intros s Hs. injection Hs as <-. split; eexists; reflexivity.
  - reflexivity.
  - discriminate.
  - left. reflexivity.
Defined.

Lemma fetch_all_perm (d : db) :
  Permutation (fetch_complaints None None None None None d) (complaints d).
Proof.
  unfold fetch_complaints. cbv zeta.
  eapply perm_trans; [apply order_by_perm|].
  change (selected (where_clauses None None None None None))
    with (fun _ : Complaints.row => true).
  rewrite filter_true. apply Permutation_refl.
Qed.

(** X21.  In every store the application can reach, the metrics at the
    head of the chairman's page are computed without error; the total
    is the number of complaints in the store, and the average is absent
    exactly when no complaint has a resolution time. *)
Theorem chairman_page_metrics_are_computed :
  forall (d : db) (today : date),
    reachable d ->
    exists (open_count resolved_today : Z) (avg_hours : option Q),
      chairman_page_metrics today d
      = Returned (Z.of_nat (List.length (complaints d)), open_count,
                  resolved_today, avg_hours)
      /\ (avg_hours = None
          <-> forall r, In r (complaints d) ->
                        Complaints.resolved_at r = None).
Proof.
  intros d today Hd. unfold chairman_page_metrics. cbv zeta.
  pose proof (fetch_all_perm d) as Hperm.
  set (rows := fetch_complaints None None None None None d) in *.
  assert (Hrows : Forall timestamps_parse rows).
  { apply Forall_forall. intros r Hr. apply stored_timestamps_parse.
    apply (Permutation_in _ Hperm) in Hr.
    exact (proj1 (Forall_forall _ _) (reachable_timestamps Hd) r Hr). }
  unfold compute_resolution_metrics.
  destruct (metrics_loop (date_isoformat today) Hrows 0 [])
    as [n [more [E F]]].
  rewrite E. cbn [app]. rewrite (Permutation_length Hperm).
  do 3 eexists. split; [reflexivity|].
  apply Forall2_length in F. rewrite length_map in F.
  assert (Hnone : List.length (filter is_resolved rows) = 0%nat
                  <-> forall r, In r (complaints d) ->
                                Complaints.resolved_at r = None).
  { split.
    - intros H0 r Hr.
      apply (Permutation_in _ (Permutation_sym Hperm)) in Hr.
      destruct (Complaints.resolved_at r) as [s|] eqn:Es; [|reflexivity].
      assert (Hin : In r (filter is_resolved rows)).
      { apply filter_In. split; [exact Hr|]. unfold is_resolved.
        rewrite Es. reflexivity. }
      destruct (filter is_resolved rows); [destruct Hin | discriminate].
    - intros H. destruct (filter is_resolved rows) as [|r l] eqn:Ef;
        [reflexivity|].
      assert (Hin : In r (filter is_resolved rows))
        by (rewrite Ef; left; reflexivity).
      apply filter_In in Hin. destruct Hin as [Hin Hres].
      apply (Permutation_in _ Hperm) in Hin.
      unfold is_resolved in Hres. rewrite (H r Hin) in Hres. discriminate. }
  rewrite <- Hnone, <- F.
  destruct more; split; intros H; try reflexivity; discriminate.
Qed.

Lemma chairman_page_metrics_are_computed_witness :
  exists (open_count resolved_today : Z) (avg_hours : option Q),
    chairman_page_metrics (mkdate 2024 3 1) db_started
    = Returned (Z.of_nat (List.length (complaints db_started)), open_count,
                resolved_today, avg_hours)
    /\ (avg_hours = None
        <-> forall r, In r (complaints db_started) ->
                      Complaints.resolved_at r = None).
Proof.
  apply (@chairman_page_metrics_are_computed db_started (mkdate 2024 3 1)).
  exact db_started_reachable.
Defined.

(** ** Timestamps as stored *)

(** X22.  A timestamp is read back as it was written: [fromisoformat]
    returns the datetime [isoformat] was given, and two datetimes are
    never written as the same text. *)
Theorem stored_timestamp_round_trip :
  forall dt : datetime,
    valid_datetime dt = true ->
    fromisoformat (datetime_isoformat dt) = Returned dt
    /\ forall dt',
         valid_datetime dt' = true ->
         datetime_isoformat dt' = datetime_isoformat dt -> dt' = dt.
Proof.
  intros dt Hv. pose proof (fromisoformat_isoformat dt Hv) as E.
  split; [exact E|].
  intros dt' Hv' Heq.
  pose proof (fromisoformat_isoformat dt' Hv') as E'.
  rewrite Heq, E in E'. injection E' as <-. reflexivity.
Qed.

Lemma stored_timestamp_round_trip_witness :
  fromisoformat (datetime_isoformat
                   (mkdatetime (mkdate 2024 2 29) (mktime 23 59 59 250)))
  = Returned (mkdatetime (mkdate 2024 2 29) (mktime 23 59 59 250))
  /\ forall dt',
       valid_datetime dt' = true ->
       datetime_isoformat dt'
       = datetime_isoformat
           (mkdatetime (mkdate 2024 2 29) (mktime 23 59 59 250)) ->
       dt' = mkdatetime (mkdate 2024 2 29) (mktime 23 59 59 250).
Proof.
  apply (@stored_timestamp_round_trip
           (mkdatetime (mkdate 2024 2 29) (mktime 23 59 59 250))).
  reflexivity.
Defined.

(** X23.  The texts of two timestamps compare, character by character,
    as the times they denote: earlier, equal or later.  This is what
    makes ORDER BY on the TEXT column an order in time. *)
Theorem timestamp_text_compares_as_time :
  forall dt1 dt2 : datetime,
    valid_datetime dt1 = true ->
    valid_datetime dt2 = true ->
    String.compare (datetime_isoformat dt1) (datetime_isoformat dt2)
    = (to_microseconds dt1 ?= to_microseconds dt2).
Proof.
  intros dt1 dt2 H1 H2.
  rewrite (compare_isoformat_fields _ _ H1 H2).
  symmetry. apply to_microseconds_compare; assumption.
Qed.

Lemma timestamp_text_compares_as_time_witness :
  String.compare
    (datetime_isoformat (mkdatetime (mkdate 2023 12 31) (mktime 23 59 59 0)))
    (datetime_isoformat (mkdatetime (mkdate 2024 1 1) (mktime 0 0 0 1)))
  = (to_microseconds (mkdatetime (mkdate 2023 12 31) (mktime 23 59 59 0))
     ?= to_microseconds (mkdatetime (mkdate 2024 1 1) (mktime 0 0 0 1))).
Proof.
  apply (@timestamp_text_compares_as_time
           (mkdatetime (mkdate 2023 12 31) (mktime 23 59 59 0))
           (mkdatetime (mkdate 2024 1 1) (mktime 0 0 0 1)));
    reflexivity.
Defined.

(** ** The table of recent complaints *)

Lemma StronglySorted_split {A : Type} (R : A -> A -> Prop) (l1 l2 : list A) :
  StronglySorted R (l1 ++ l2)%list ->
  forall a b, In a l1 -> In b l2 -> R a b.
Proof.
  induction l1 as [|x l1 IH]; intros Hs a b Ha Hb; [destruct Ha|].
  cbn [app] in Hs. apply StronglySorted_inv in Hs. destruct Hs as [Hs Hall].
  destruct Ha as [<-|Ha].
  - apply (proj1 (Forall_forall _ _) Hall). apply in_or_app. right. exact Hb.
  - apply IH; assumption.
Qed.

(** X24.  The table of recent complaints shows ten complaints, or all
    of them when there are fewer, one line for each, and they are the
    first of the listing: no complaint left out sorts before one that
    is shown. *)
Theorem recent_complaints_are_the_first_ten :
  forall d : db,
    let listing := fetch_complaints None None None None None d in
    principal_page_recent d = complaints_to_df (firstn 10 listing)
    /\ List.length (principal_page_recent d)
       = Nat.min 10 (List.length (complaints d))
    /\ forall shown hidden,
         In shown (firstn 10 listing) -> In hidden (skipn 10 listing) ->
         newest_first shown hidden.
Proof.
  intros d listing. subst listing. unfold principal_page_recent.
  split; [apply firstn_map|]. split.
  - rewrite length_firstn. unfold complaints_to_df. rewrite length_map.
    rewrite (Permutation_length (fetch_all_perm d)). reflexivity.
  - apply StronglySorted_split. rewrite firstn_skipn.
    unfold fetch_complaints. apply order_by_sorted.
Qed.
